(** * mage_ai.io.base: the data connector contract layer

    A shallow embedding of [mage_ai/io/base.py]: the [FileFormat] registry,
    the query shaper of [BaseIO], the file connector [BaseFile], the name
    sanitizer and [sample] of [BaseSQLDatabase] and the connection life cycle
    of [BaseSQLConnection].

    Python values are modelled as follows.
    - [str] is [string]; [==] on strings is [String.eqb].
    - [raise E(msg)] is [inl (E msg)], a normal return of [v] is [inr v].
    - keyword arguments ([**kwargs]) are a [gmap string PyVal].
    - calls into collaborators that live outside this module and return
      nothing (the frame writers, the database driver behind [_ctx],
      [print]) are recorded as events in an explicit log that is threaded
      through the code, and are taken to return normally; a reader, which
      returns a frame or raises, is a function that is passed in. *)

From Stdlib Require Import ZArith String Ascii List Lia DecimalString DecimalPos DecimalZ.
From stdpp Require Import base option gmap strings list.

Local Open Scope string_scope.

(** ** Exceptions and results *)

Inductive Exn : Type :=
| ValueError (msg : string)
| ConnectionError (msg : string)
| TypeError (msg : string)
| AttributeError (name : string).

Definition Result (A : Type) : Type := Exn + A.

Definition raise {A : Type} (e : Exn) : Result A := inl e.

#[export] Instance Result_ret : MRet Result := λ A a, inr a.
#[export] Instance Result_bind : MBind Result := λ A B k m,
  match m with
  | inl e => inl e
  | inr a => k a
  end.

Definition ret {A : Type} (a : A) : Result A := mret a.

(** ** The fragment of Python's [str] and [os.path] that the module uses

    A string is a sequence of 8-bit characters; [upper] and [lower] change
    the ASCII letters and leave every other character as it is. *)

Module PyStr.

Definition is_ascii_lower (c : ascii) : bool :=
  ((97 <=? N_of_ascii c) && (N_of_ascii c <=? 122))%N.

Definition is_ascii_upper (c : ascii) : bool :=
  ((65 <=? N_of_ascii c) && (N_of_ascii c <=? 90))%N.

Definition upper_char (c : ascii) : ascii :=
  if is_ascii_lower c then ascii_of_N (N_of_ascii c - 32) else c.

Definition lower_char (c : ascii) : ascii :=
  if is_ascii_upper c then ascii_of_N (N_of_ascii c + 32) else c.

Fixpoint map_chars (f : ascii → ascii) (s : string) : string :=
  match s with
  | EmptyString => EmptyString
  | String c s' => String (f c) (map_chars f s')
  end.

(** [s.upper()] and [s.lower()]. *)
Definition upper : string → string := map_chars upper_char.
Definition lower : string → string := map_chars lower_char.

(** [c in chars] for a one-character [c]. *)
Fixpoint mem (c : ascii) (chars : string) : bool :=
  match chars with
  | EmptyString => false
  | String d chars' => Ascii.eqb c d || mem c chars'
  end.

Definition is_empty (s : string) : bool :=
  match s with
  | EmptyString => true
  | String _ _ => false
  end.

(** [s.lstrip(chars)], [s.rstrip(chars)] and [s.strip(chars)]. *)
Fixpoint lstrip (chars s : string) : string :=
  match s with
  | EmptyString => EmptyString
  | String c s' => if mem c chars then lstrip chars s' else s
  end.

Fixpoint rstrip (chars s : string) : string :=
  match s with
  | EmptyString => EmptyString
  | String c s' =>
      let r := rstrip chars s' in
      if is_empty r && mem c chars then EmptyString else String c r
  end.

Definition strip (chars s : string) : string := rstrip chars (lstrip chars s).

(** [str(n)] for an [int]. *)
Definition str_of_int (n : Z) : string := NilZero.string_of_int (Z.to_int n).

(** Every character of [s] is one of [chars]. *)
Fixpoint all_in (chars s : string) : bool :=
  match s with
  | EmptyString => true
  | String c s' => mem c chars && all_in chars s'
  end.

Definition first_char (s : string) : option ascii :=
  match s with
  | EmptyString => None
  | String c _ => Some c
  end.

Fixpoint last_char (s : string) : option ascii :=
  match s with
  | EmptyString => None
  | String c EmptyString => Some c
  | String _ s' => last_char s'
  end.

End PyStr.

(** ** FileFormat *)

Inductive FileFormat : Type := CSV | JSON | PARQUET | HDF5 | XML | EXCEL.

(** [FileFormat] is a [StrEnum]: each member is its string value. *)
Definition FileFormat_value (f : FileFormat) : string :=
  match f with
  | CSV => "csv"
  | JSON => "json"
  | PARQUET => "parquet"
  | HDF5 => "hdf5"
  | XML => "xml"
  | EXCEL => "excel"
  end.

(** [FileFormat.from_extension]. *)
Definition from_extension (ext : string) : Result FileFormat :=
  if String.eqb ext "csv" then ret CSV
  else if String.eqb ext "json" then ret JSON
  else if String.eqb ext "parquet" then ret PARQUET
  else if String.eqb ext "hdf5" then ret HDF5
  else if String.eqb ext "xml" then ret XML
  else if String.eqb ext "xls" || String.eqb ext "xlsx" then ret EXCEL
  else raise (ValueError ("None file format found for this file extension: " ++ ext)).

Module OsPath.
Import PyStr.

(** [p[n:]] and [p[:n]] for a non-negative index. *)
Fixpoint drop_str (n : nat) (p : string) : string :=
  match n, p with
  | O, _ => p
  | S _, EmptyString => EmptyString
  | S n', String _ p' => drop_str n' p'
  end.

Fixpoint take_str (n : nat) (p : string) : string :=
  match n, p with
  | O, _ => EmptyString
  | S _, EmptyString => EmptyString
  | S n', String c p' => String c (take_str n' p')
  end.

(** [p.rfind(c)]: the index of the last [c] in [p], or [-1]; [i] is the
    index of the first character of [p] in the whole string. *)
Fixpoint rfind_from (i : Z) (c : ascii) (p : string) : Z :=
  match p with
  | EmptyString => -1
  | String a p' =>
      let r := rfind_from (i + 1) c p' in
      if (0 <=? r)%Z then r else if Ascii.eqb a c then i else (-1)%Z
  end.

Definition rfind (c : ascii) (p : string) : Z := rfind_from 0 c p.

(** [posixpath.basename]: [i = p.rfind('/') + 1; return p[i:]]. *)
Definition basename (p : string) : string :=
  let i := (rfind "/" p + 1)%Z in
  drop_str (Z.to_nat i) p.

(** Some character of [s] differs from [c]. *)
Fixpoint has_other (c : ascii) (s : string) : bool :=
  match s with
  | EmptyString => false
  | String a s' => negb (Ascii.eqb a c) || has_other c s'
  end.

(** [posixpath.splitext] ([genericpath._splitext] with [sep = '/'],
    no [altsep], [extsep = '.']): the extension starts at the last dot of
    the last path component, leading dots of that component apart. *)
Definition splitext (p : string) : string * string :=
  let sepIndex := rfind "/" p in
  let dotIndex := rfind "." p in
  if (sepIndex <? dotIndex)%Z then
    let filenameIndex := (sepIndex + 1)%Z in
    let leading :=
      take_str (Z.to_nat (dotIndex - filenameIndex))
               (drop_str (Z.to_nat filenameIndex) p) in
    if has_other "." leading
    then (take_str (Z.to_nat dotIndex) p, drop_str (Z.to_nat dotIndex) p)
    else (p, EmptyString)
  else (p, EmptyString).

End OsPath.

(** ** Values, tables and keyword arguments *)

Inductive PyVal : Type :=
| VNone
| VBool (b : bool)
| VInt (n : Z)
| VStr (s : string).

Definition Row : Type := list PyVal.

(** A data frame: named columns and rows, row order significant. *)
Record Frame : Type := mkFrame {
  columns : list string;
  rows : list Row
}.

(** The runtime type of the [df] argument of [_write]: a pandas
    [DataFrame], a polars [pl.DataFrame], or an object of another type. *)
Inductive Table : Type :=
| PandasFrame (f : Frame)
| PolarsFrame (f : Frame)
| OtherObject.

(** An [input] or [output] argument:
    - [Path p]: a [str] or [os.PathLike] file path;
    - [Stream id]: an object for which [isinstance(output, IO)] holds, [IO]
      being [typing.IO];
    - [Buffer type_name]: any other file-like object, of the type named.
      The streams of the standard library ([io.BytesIO], [io.StringIO], the
      files [open] returns) are of this kind: they are not instances of
      [typing.IO]. *)
Inductive FileObj : Type :=
| Path (p : string)
| Stream (id : nat)
| Buffer (type_name : string).

Definition QUERY_ROW_LIMIT : Z := 10000000.

Definition nl : string := String "010" EmptyString.
Definition tab : string := String "009" EmptyString.

(** ** BaseIO *)

Module BaseIO.
Import PyStr.

(** [_enforce_limit(self, query, limit)]; [self] is not used. *)
Definition _enforce_limit (query : string) (limit : Z) : string :=
  let query := strip ";" query in
  nl ++ "WITH subquery AS (" ++ nl
     ++ "    " ++ query ++ nl
     ++ ")" ++ nl
     ++ nl
     ++ "SELECT *" ++ nl
     ++ "FROM subquery" ++ nl
     ++ "LIMIT " ++ str_of_int limit ++ nl.

Definition _enforce_limit_default (query : string) : string :=
  _enforce_limit query QUERY_ROW_LIMIT.

End BaseIO.

(** ** BaseFile *)

Inductive Reader : Type :=
| read_csv | read_json | read_parquet | read_hdf | read_xml | read_excel.

(** The bound methods that [__get_writer] can return: polars' [write_*]
    and pandas' [to_*]. A polars [DataFrame] has no [write_hdf5] and no
    [write_xml] method. *)
Inductive Writer : Type :=
| write_csv | write_json | write_excel | write_parquet
| to_csv | to_json | to_hdf | to_xml | to_excel | to_parquet.

(** One call [writer(output, **kwargs)] of a method bound to [wc_df]. *)
Record WriteCall : Type := mkWriteCall {
  wc_writer : Writer;
  wc_df : Table;
  wc_output : FileObj;
  wc_kwargs : gmap string PyVal
}.

Module BaseFile.
Import PyStr OsPath.

(** [format == FileFormat.X] for a [format] that is a [FileFormat], a
    [str] or [None]; a [StrEnum] member compares equal to its value. *)
Definition format_is (format : option string) (f : FileFormat) : bool :=
  match format with
  | Some s => String.eqb s (FileFormat_value f)
  | None => false
  end.

Definition str_of_format (format : option string) : string :=
  match format with
  | Some s => s
  | None => "None"
  end.

(** [_get_file_format]. *)
Definition _get_file_format (filepath : string) : Result FileFormat :=
  from_extension (drop_str 1 (snd (splitext (basename filepath)))).

(** [__get_reader]. *)
Definition __get_reader (format : option string) : Result Reader :=
  if format_is format CSV then ret read_csv
  else if format_is format JSON then ret read_json
  else if format_is format PARQUET then ret read_parquet
  else if format_is format HDF5 then ret read_hdf
  else if format_is format XML then ret read_xml
  else if format_is format EXCEL then ret read_excel
  else raise (ValueError ("Invalid format '" ++ str_of_format format ++ "' specified.")).

(** [df[:limit]]: Python's slice, a negative [limit] counts from the end. *)
Definition slice_to {A : Type} (limit : Z) (l : list A) : list A :=
  if (0 <=? limit)%Z then take (Z.to_nat limit) l
  else take (length l - Z.to_nat (- limit)) l.

(** [__trim_df]. *)
Definition __trim_df (df : Frame) (limit : Z) : Frame :=
  {| columns := columns df; rows := slice_to limit (rows df) |}.

(** [__get_writer]; [None] when [df] is neither a polars nor a pandas
    frame (the method falls off its end). On a polars frame the attribute
    accesses [df.write_hdf5] and [df.write_xml] raise [AttributeError]. *)
Definition __get_writer (df : Table) (format : option string)
    : Result (option Writer) :=
  match df with
  | PolarsFrame _ =>
      if format_is format CSV then ret (Some write_csv)
      else if format_is format JSON then ret (Some write_json)
      else if format_is format HDF5 then raise (AttributeError "write_hdf5")
      else if format_is format XML then raise (AttributeError "write_xml")
      else if format_is format EXCEL then ret (Some write_excel)
      else ret (Some write_parquet)
  | PandasFrame _ =>
      if format_is format CSV then ret (Some to_csv)
      else if format_is format JSON then ret (Some to_json)
      else if format_is format HDF5 then ret (Some to_hdf)
      else if format_is format XML then ret (Some to_xml)
      else if format_is format EXCEL then ret (Some to_excel)
      else ret (Some to_parquet)
  | OtherObject => ret None
  end.

(** [isinstance(df, DataFrame)] for pandas' [DataFrame]. *)
Definition is_pandas (df : Table) : bool :=
  match df with
  | PandasFrame _ => true
  | _ => false
  end.

(** [writer(output, **kwargs)]: the call is appended to the log of
    writes; calling [None] raises [TypeError]. *)
Definition call_writer (writer : option Writer) (df : Table) (output : FileObj)
    (kwargs : gmap string PyVal) (log : list WriteCall)
    : Result unit * list WriteCall :=
  match writer with
  | Some w => (ret tt, (log ++ [mkWriteCall w df output kwargs])%list)
  | None => (raise (TypeError "'NoneType' object is not callable"), log)
  end.

(** [kwargs.setdefault(k, v)]. *)
Definition setdefault (k : string) (v : PyVal) (kwargs : gmap string PyVal)
    : gmap string PyVal :=
  match kwargs !! k with
  | Some _ => kwargs
  | None => <[k := v]> kwargs
  end.

(** [_write(self, df, format, output, **kwargs)], run on the log of the
    writer calls made so far; the result is what the method returns or
    raises, and the log after it. In the HDF5 branch an [output] that
    passes the [isinstance(output, IO)] test raises [ValueError]; any
    other object that is no path reaches [os.path.basename(output)], where
    [os.fspath] raises [TypeError]. *)
Definition _write (df : Table) (format : option string) (output : FileObj)
    (kwargs : gmap string PyVal) (log : list WriteCall)
    : Result unit * list WriteCall :=
  let format :=
    match format with
    | None => Some (FileFormat_value PARQUET)
    | Some _ => format
    end in
  match __get_writer df format with
  | inl e => (inl e, log)
  | inr writer =>
      if format_is format HDF5 then
        match output with
        | Stream _ =>
            (raise (ValueError "Cannot write HDF5 file to buffer of any type."), log)
        | Path p =>
            let name := fst (splitext (basename p)) in
            let kwargs := setdefault "key" (VStr name) kwargs in
            call_writer writer df output kwargs log
        | Buffer type_name =>
            (raise (TypeError ("expected str, bytes or os.PathLike object, not "
                                 ++ type_name)), log)
        end
      else if format_is format PARQUET && is_pandas df then
        let kwargs :=
          match kwargs !! "coerce_timestamps" with
          | None =>
              <["allow_truncated_timestamps" := VBool true]>
                (<["coerce_timestamps" := VStr "ms"]> kwargs)
          | Some _ => kwargs
          end in
        call_writer writer df output kwargs log
      else call_writer writer df output kwargs log
  end.

Section Read.
(** The pandas readers: what [reader(input, **kwargs)] returns. *)
Variable run_reader : Reader → FileObj → gmap string PyVal → Result Frame.

(** [_read(self, input, format, limit, **kwargs)]. *)
Definition _read (input : FileObj) (format : option string) (limit : Z)
    (kwargs : gmap string PyVal) : Result Frame :=
  reader ← __get_reader format;
  df ← run_reader reader input kwargs;
  ret df.

Definition _read_default (input : FileObj) (format : option string)
    (kwargs : gmap string PyVal) : Result Frame :=
  _read input format QUERY_ROW_LIMIT kwargs.
End Read.

End BaseFile.

(** ** BaseSQLDatabase *)

(** The abstract [load] of [BaseIO], as a concrete connector of state
    [Self] implements it: it receives the query string and the keyword
    arguments, and returns a frame or raises. *)
Class Loader (Self : Type) : Type :=
  load : Self → string → gmap string PyVal → Result Frame * Self.

(** A connector that only records the query strings it is asked to load. *)
Definition QueryLog : Type := list string.

#[export] Instance QueryLog_load : Loader QueryLog :=
  λ self query _, (ret (mkFrame [] []), (self ++ [query])%list).

Module BaseSQLDatabase.
Import PyStr.

(** [sample(self, schema, table, size, **kwargs)]. *)
Definition sample `{Loader Self} (self : Self) (schema table : string) (size : Z)
    (kwargs : gmap string PyVal) : Result Frame * Self :=
  load self ("SELECT * FROM " ++ schema ++ "." ++ table
               ++ " LIMIT " ++ str_of_int size ++ ";") kwargs.

Definition sample_default `{Loader Self} (self : Self) (schema table : string)
    (kwargs : gmap string PyVal) : Result Frame * Self :=
  sample self schema table QUERY_ROW_LIMIT kwargs.

(** [_clean_query]. *)
Definition _clean_query (query_string : string) : string :=
  strip (" " ++ nl ++ tab) query_string.

Section CleanColumnName.
(** [mage_ai.shared.utils.clean_name(name, case_sensitive=...)] and
    [mage_ai.io.constants.SQL_RESERVED_WORDS] are imported from other
    modules; the sanitizer is stated over any such pair. *)
Variable clean_name : string → bool → string.
Variable SQL_RESERVED_WORDS : gset string.

(** [_clean_column_name(self, column_name, allow_reserved_words,
    auto_clean_name, case_sensitive)]. *)
Definition _clean_column_name (column_name : string)
    (allow_reserved_words auto_clean_name case_sensitive : bool) : string :=
  if negb auto_clean_name then column_name
  else
    let col_new := clean_name column_name case_sensitive in
    if negb allow_reserved_words
       && bool_decide (upper col_new ∈ SQL_RESERVED_WORDS)
    then "_" ++ col_new
    else col_new.

(** The call with every option at its default:
    [allow_reserved_words=False], [auto_clean_name=True],
    [case_sensitive=False]. *)
Definition _clean_column_name_default (column_name : string) : string :=
  _clean_column_name column_name false true false.
End CleanColumnName.

End BaseSQLDatabase.

(** ** BaseSQLConnection *)

(** [VerbosePrintHandler], as far as this module reads it. *)
Record VerbosePrintHandler : Type := mkPrinter {
  exists_previous_message : bool
}.

Module BaseSQLConnection.

Section Connection.
(** The connection object a driver hands out, stored under [_ctx]. *)
Context {Handle : Type}.

(** What the connector does to the outside: calls on the driver's
    connection object, and [print]. *)
Inductive Event : Type :=
| CtxClose (h : Handle)
| CtxCommit (h : Handle)
| CtxRollback (h : Handle)
| Print (s : string).

(** The instance: the attributes [__init__] sets, and [__dict__] for
    the attributes that come and go afterwards ([_ctx]). *)
Record Conn : Type := mkConn {
  verbose : bool;
  printer : VerbosePrintHandler;
  settings : gmap string PyVal;
  __dict__ : gmap string Handle
}.

(** Methods run on the instance and the log of events so far; a raised
    exception keeps the changes made before it. *)
Definition State : Type := Conn * list Event.
Definition M (A : Type) : Type := State → Result A * State.

Global Instance M_ret : MRet M := λ A a st, (inr a, st).
Global Instance M_bind : MBind M := λ A B k m st,
  match m st with
  | (inl e, st') => (inl e, st')
  | (inr a, st') => k a st'
  end.

Definition throw {A : Type} (e : Exn) : M A := λ st, (inl e, st).

Definition get_self : M Conn := λ st, (inr (fst st), st).

Definition emit (e : Event) : M unit :=
  λ '(self, log), (inr tt, (self, (log ++ [e])%list)).

(** [name in self.__dict__]. *)
Definition in_dict (name : string) : M bool :=
  λ '(self, log), (inr (bool_decide (is_Some (__dict__ self !! name))), (self, log)).

(** [self.name] for an attribute kept in [__dict__]. *)
Definition getattr (name : string) : M Handle :=
  λ '(self, log),
    match __dict__ self !! name with
    | Some v => (inr v, (self, log))
    | None => (inl (AttributeError name), (self, log))
    end.

(** [self.name = v]. *)
Definition setattr (name : string) (v : Handle) : M unit :=
  λ '(self, log),
    (inr tt,
     (mkConn (verbose self) (printer self) (settings self)
             (<[name := v]> (__dict__ self)), log)).

(** [del self.name]. *)
Definition delattr (name : string) : M unit :=
  λ '(self, log),
    match __dict__ self !! name with
    | Some _ =>
        (inr tt,
         (mkConn (verbose self) (printer self) (settings self)
                 (delete name (__dict__ self)), log))
    | None => (inl (AttributeError name), (self, log))
    end.

(** [try: body except AttributeError: handler]. *)
Definition try_except_AttributeError {A : Type} (body handler : M A) : M A :=
  λ st,
    match body st with
    | (inl (AttributeError _), st') => handler st'
    | r => r
    end.

(** [__init__(self, verbose, **kwargs)]; [p] is the
    [VerbosePrintHandler] that [BaseIO.__init__] constructs. *)
Definition __init__ (verbose : bool) (p : VerbosePrintHandler)
    (kwargs : gmap string PyVal) : Conn :=
  mkConn verbose p kwargs ∅.

(** [close]. *)
Definition close : M unit :=
  has_ctx ← in_dict "_ctx";
  (if has_ctx : bool then
     ctx ← getattr "_ctx";
     emit (CtxClose ctx);;
     delattr "_ctx"
   else mret tt);;
  self ← get_self;
  if verbose self && exists_previous_message (printer self)
  then emit (Print "")
  else mret tt.

(** The exception [conn] raises. *)
Definition not_connected : Exn :=
  ConnectionError
    "No connection currently open. Open a new connection to access this property.".

(** The property [conn]. *)
Definition conn : M Handle :=
  try_except_AttributeError (getattr "_ctx") (throw not_connected).

(** [commit] and [rollback]. *)
Definition commit : M unit :=
  c ← conn;
  emit (CtxCommit c).

Definition rollback : M unit :=
  c ← conn;
  emit (CtxRollback c).

(** Modelled from the spec: [open] is abstract in [BaseSQLConnection];
    by section 4.5 of the specification a concrete connector's [open]
    establishes the connection handle, which [close] and [conn] look
    up under [_ctx]. [h] is the handle the driver returns. *)
Definition open (h : Handle) : M unit := setattr "_ctx" h.

(** [__del__], [__enter__] and [__exit__]. *)
Definition __del__ : M unit := close.

Definition __enter__ (h : Handle) : M unit := open h.

Definition __exit__ : M unit := close.

(** The calls a client makes on a connector, and a run of them; a call
    that raises leaves the instance as it is and the run goes on, as
    when the client catches the exception. *)
Inductive Call : Type :=
| CallOpen (h : Handle)
| CallClose
| CallCommit
| CallRollback
| CallConn.

Definition call (c : Call) : M unit :=
  match c with
  | CallOpen h => open h
  | CallClose => close
  | CallCommit => commit
  | CallRollback => rollback
  | CallConn => _ ← conn; mret tt
  end.

Definition run (cs : list Call) (st : State) : State :=
  fold_left (λ st c, snd (call c st)) cs st.

(** The blank line [close] prints when [verbose] is set and a message
    was printed before. *)
Definition separator (self : Conn) : list Event :=
  if verbose self && exists_previous_message (printer self)
  then [Print ""] else [].

(** The driver call [close] makes: on the handle, if there is one. *)
Definition released (self : Conn) : list Event :=
  match __dict__ self !! "_ctx" with
  | Some h => [CtxClose h]
  | None => []
  end.

(** The handle the last [open] of a run left open, if no [close]
    followed it. *)
Fixpoint open_handle (cs : list Call) (acc : option Handle) : option Handle :=
  match cs with
  | [] => acc
  | CallOpen h :: cs' => open_handle cs' (Some h)
  | CallClose :: cs' => open_handle cs' None
  | _ :: cs' => open_handle cs' acc
  end.
End Connection.

Arguments Event : clear implicits.
Arguments Conn : clear implicits.
Arguments State : clear implicits.
Arguments M : clear implicits.
Arguments Call : clear implicits.

End BaseSQLConnection.

(** ** Definitions used to state the properties *)

(** The extensions [from_extension] knows, with their tags. *)
Definition known_extensions : list (string * FileFormat) :=
  [("csv", CSV); ("json", JSON); ("parquet", PARQUET); ("hdf5", HDF5);
   ("xml", XML); ("xls", EXCEL); ("xlsx", EXCEL)].

(** A frame of three rows and a reader that returns it, whatever it is
    asked to read. *)
Definition three_rows : Frame :=
  mkFrame ["id"] [[VInt 1]; [VInt 2]; [VInt 3]].

Definition reader_of_three_rows
    : Reader → FileObj → gmap string PyVal → Result Frame :=
  λ _ _ _, ret three_rows.

(** A letter, a digit or an underscore. *)
Definition is_word_char (c : ascii) : bool :=
  PyStr.is_ascii_lower c || PyStr.is_ascii_upper c
  || ((48 <=? N_of_ascii c) && (N_of_ascii c <=? 57))%N
  || Ascii.eqb c "_".

(** Modelled from the spec: [clean_name] is the external name-cleaning
    collaborator, absent from this module; section 4.3 of the specification
    describes it as case folding unless [caseSensitive] and normalization
    of whitespace and punctuation. This instance folds case and turns every
    character that is not a letter, a digit or an underscore into an
    underscore. It serves as an instance of the sanitizer's parameters. *)
Definition clean_name_model (name : string) (case_sensitive : bool) : string :=
  let name := PyStr.map_chars (λ c, if is_word_char c then c else "_"%char) name in
  if case_sensitive then name else PyStr.lower name.

(** Text beyond ASCII, as UTF-8: the bytes of a Python [str] whose
    characters are below U+0800. *)
Module Utf8Text.










End Utf8Text.

(** Modelled from the spec: [SQL_RESERVED_WORDS] is the static set of
    upper-case SQL keywords, absent from this module; a few of them. *)
Definition reserved_words_model : gset string :=
  {[ "SELECT"; "FROM"; "WHERE"; "TABLE"; "ORDER"; "GROUP"; "USER" ]}.

(** The reader of each format tag. *)
Definition FileFormat_reader (f : FileFormat) : Reader :=
  match f with
  | CSV => read_csv
  | JSON => read_json
  | PARQUET => read_parquet
  | HDF5 => read_hdf
  | XML => read_xml
  | EXCEL => read_excel
  end.

(** The parquet writer of a table's engine. *)
Definition parquet_writer (df : Table) : option Writer :=
  match df with
  | PandasFrame _ => Some to_parquet
  | PolarsFrame _ => Some write_parquet
  | OtherObject => None
  end.

(** The format tags for which [__get_writer] has a branch of their own. *)
Definition formats_with_own_writer : list FileFormat := [CSV; JSON; HDF5; XML; EXCEL].

(** The statement [_enforce_limit] builds around the text of a query. *)
Definition limit_envelope (inner : string) (limit : Z) : string :=
  nl ++ "WITH subquery AS (" ++ nl
     ++ "    " ++ inner ++ nl
     ++ ")" ++ nl
     ++ nl
     ++ "SELECT *" ++ nl
     ++ "FROM subquery" ++ nl
     ++ "LIMIT " ++ PyStr.str_of_int limit ++ nl.

(** The characters [_clean_query] strips. *)
Definition query_whitespace : string := " " ++ nl ++ tab.

(** The driver handle an event is a call on, if it is one. *)
Definition event_handle {Handle : Type} (e : BaseSQLConnection.Event Handle)
    : option Handle :=
  match e with
  | BaseSQLConnection.CtxClose h => Some h
  | BaseSQLConnection.CtxCommit h => Some h
  | BaseSQLConnection.CtxRollback h => Some h
  | BaseSQLConnection.Print _ => None
  end.

Definition is_ctx_close {Handle : Type} (e : BaseSQLConnection.Event Handle) : bool :=
  match e with
  | BaseSQLConnection.CtxClose _ => true
  | _ => false
  end.

(** The handles a run of calls opens, in order. *)
Definition opened_handles {Handle : Type} (cs : list (BaseSQLConnection.Call Handle))
    : list Handle :=
  omap (λ c, match c with
             | BaseSQLConnection.CallOpen h => Some h
             | _ => None
             end) cs.

(** A call that is neither [open] nor [close]. *)
Definition keeps_handle {Handle : Type} (c : BaseSQLConnection.Call Handle) : bool :=
  match c with
  | BaseSQLConnection.CallOpen _ | BaseSQLConnection.CallClose => false
  | _ => true
  end.

(** * Properties *)

#[local] Arguments String.append !_ _ / : simpl nomatch.

(** ** Strings *)

Section StringFacts.
Import PyStr.

Lemma append_empty_r (s : string) : s ++ "" = s.
Proof. induction s as [|c s IH]; simpl; [reflexivity | now rewrite IH]. Qed.

Lemma append_assoc (a b c : string) : (a ++ b) ++ c = a ++ b ++ c.
Proof. induction a as [|x a IH]; simpl; [reflexivity | now rewrite IH]. Qed.

Lemma all_in_app (chars a b : string) :
  all_in chars (a ++ b) = all_in chars a && all_in chars b.
Proof.
  induction a as [|x a IH]; simpl; [reflexivity|].
  rewrite IH. now destruct (mem x chars).
Qed.

(** [lstrip] removes a prefix made of [chars] only. *)
Lemma lstrip_split (chars s : string) :
  ∃ l, s = l ++ lstrip chars s ∧ all_in chars l = true.
Proof.
  induction s as [|c s [l [Hs Hl]]]; simpl.
  - exists "". split; reflexivity.
  - destruct (mem c chars) eqn:Hc.
    + exists (String c l). simpl. rewrite Hc, Hl. split; [now f_equal | reflexivity].
    + exists "". split; reflexivity.
Qed.

Lemma lstrip_first (chars s : string) (c : ascii) :
  first_char (lstrip chars s) = Some c → mem c chars = false.
Proof.
  induction s as [|a s IH]; simpl; [discriminate|].
  destruct (mem a chars) eqn:Ha; [exact IH|].
  simpl. intros [= <-]. exact Ha.
Qed.

(** [rstrip] removes a suffix made of [chars] only. *)
Lemma rstrip_split (chars s : string) :
  ∃ r, s = rstrip chars s ++ r ∧ all_in chars r = true.
Proof.
  induction s as [|c s [r [Hs Hr]]]; simpl.
  - exists "". split; reflexivity.
  - destruct (rstrip chars s) as [|d t] eqn:Ht; simpl in *.
    + destruct (mem c chars) eqn:Hc; simpl.
      * exists (String c r). simpl. rewrite Hc, Hr.
        split; [now f_equal | reflexivity].
      * exists r. split; [now f_equal | exact Hr].
    + exists r. split; [now f_equal | exact Hr].
Qed.

Lemma rstrip_last (chars s : string) (c : ascii) :
  last_char (rstrip chars s) = Some c → mem c chars = false.
Proof.
  induction s as [|a s IH]; simpl; [discriminate|].
  destruct (rstrip chars s) as [|d t] eqn:Ht; simpl.
  - destruct (mem a chars) eqn:Ha; simpl; [discriminate|].
    intros [= <-]. exact Ha.
  - exact IH.
Qed.

(** [rstrip] keeps the first character of what it leaves. *)
Lemma rstrip_first (chars s : string) (c : ascii) :
  first_char (rstrip chars s) = Some c → first_char s = Some c.
Proof.
  destruct s as [|a s]; simpl; [discriminate|].
  destruct (is_empty (rstrip chars s) && mem a chars); simpl;
    [discriminate | trivial].
Qed.

Lemma strip_split (chars s : string) :
  ∃ l r, s = l ++ strip chars s ++ r
         ∧ all_in chars l = true ∧ all_in chars r = true.
Proof.
  destruct (lstrip_split chars s) as [l [Hl Hl']].
  destruct (rstrip_split chars (lstrip chars s)) as [r [Hr Hr']].
  exists l, r. unfold strip. rewrite <- Hr. auto.
Qed.

Lemma strip_first (chars s : string) (c : ascii) :
  first_char (strip chars s) = Some c → mem c chars = false.
Proof.
  unfold strip. intros H. apply rstrip_first in H.
  now apply lstrip_first in H.
Qed.

Lemma strip_last (chars s : string) (c : ascii) :
  last_char (strip chars s) = Some c → mem c chars = false.
Proof. unfold strip. apply rstrip_last. Qed.

(** The decimal rendering of an [int] reads back as that [int]. *)
Lemma str_of_int_parses (n : Z) :
  Z.of_int <$> NilZero.int_of_string (str_of_int n) = Some n.
Proof.
  unfold str_of_int. rewrite NilZero.isi.
  - simpl. f_equal. apply DecimalZ.of_to.
  - destruct n; simpl; try discriminate.
    intros [= H]. now apply DecimalPos.Unsigned.to_uint_nonnil in H.
  - destruct n; simpl; try discriminate.
    intros [= H]. now apply DecimalPos.Unsigned.to_uint_nonnil in H.
Qed.

Lemma upper_underscore (s : string) : upper ("_" ++ s) = "_" ++ upper s.
Proof. reflexivity. Qed.

End StringFacts.

(** ** FileFormat.from_extension *)

Section FromExtension.

Lemma from_extension_known (ext : string) (f : FileFormat) :
  (ext, f) ∈ known_extensions → from_extension ext = inr f.
Proof.
  unfold known_extensions. intros H.
  repeat (apply elem_of_cons in H as [[= -> ->] | H]; [reflexivity|]).
  now apply elem_of_nil in H.
Qed.

Lemma from_extension_unknown (ext : string) :
  ext ∉ known_extensions.*1 →
  from_extension ext
  = inl (ValueError ("None file format found for this file extension: " ++ ext)).
Proof.
  unfold known_extensions. simpl. intros H.
  repeat (apply not_elem_of_cons in H as [?%String.eqb_neq H]).
  unfold from_extension.
  repeat match goal with E : (_ =? _)%string = false |- _ => rewrite E; clear E end.
  reflexivity.
Qed.

(** C1, as stated, fails: the comparison is case-sensitive, so the
    upper-case spelling of a known extension is rejected although its
    lower-case form is known. *)
Lemma from_extension_upper_case_rejected :
  PyStr.lower "CSV" = "csv"
  ∧ from_extension "csv" = inr CSV
  ∧ from_extension "CSV"
    = inl (ValueError "None file format found for this file extension: CSV").
Proof. repeat split. Qed.

(** C1, amended: [from_extension] returns the tag of each of the seven
    known extension spellings, compared exactly (case-sensitively), with
    both [xls] and [xlsx] giving [EXCEL]; on every other string, the
    upper-case and mixed-case spellings included, it raises [ValueError]
    with a message that carries the extension. Being a function of [ext]
    alone, it has no effect besides its result. *)
Theorem from_extension_exact_match (ext : string) :
  (∀ f, (ext, f) ∈ known_extensions → from_extension ext = inr f)
  ∧ (ext ∉ known_extensions.*1 →
     from_extension ext
     = inl (ValueError ("None file format found for this file extension: " ++ ext)))
  ∧ (∀ f, from_extension ext = inr f → (ext, f) ∈ known_extensions).
Proof.
  split; [|split].
  - intros f. apply from_extension_known.
  - apply from_extension_unknown.
  - intros f Hf.
    destruct (decide (ext ∈ known_extensions.*1)) as [Hin|Hout].
    + apply list_elem_of_fmap in Hin as [[e g] [-> Hin]]. simpl in *.
      pose proof (from_extension_known _ _ Hin) as Hg.
      rewrite Hg in Hf. now injection Hf as ->.
    + rewrite (from_extension_unknown _ Hout) in Hf. discriminate.
Qed.

End FromExtension.

(** ** BaseIO._enforce_limit *)

Section EnforceLimit.
Import PyStr BaseIO.

(** C4: [_enforce_limit] strips the [;] characters at both ends of the
    query and nothing else, and returns the statement that wraps the
    stripped query, verbatim, as the subquery named [subquery], selected
    from with an outer [LIMIT] that is the decimal rendering of [limit];
    for the query [SELECT * FROM t;] and the limit 5 the inner statement
    is [SELECT * FROM t] and the outer clause is [LIMIT 5]. *)
Theorem enforce_limit_wraps_stripped_query (query : string) (limit : Z) :
  let inner := strip ";" query in
  _enforce_limit query limit
  = nl ++ "WITH subquery AS (" ++ nl
       ++ "    " ++ inner ++ nl
       ++ ")" ++ nl
       ++ nl
       ++ "SELECT *" ++ nl
       ++ "FROM subquery" ++ nl
       ++ "LIMIT " ++ str_of_int limit ++ nl
  ∧ (∃ l r, query = l ++ inner ++ r
            ∧ all_in ";" l = true ∧ all_in ";" r = true)
  ∧ first_char inner ≠ Some ";"%char
  ∧ last_char inner ≠ Some ";"%char
  ∧ Z.of_int <$> NilZero.int_of_string (str_of_int limit) = Some limit
  ∧ _enforce_limit "SELECT * FROM t;" 5
    = nl ++ "WITH subquery AS (" ++ nl
         ++ "    SELECT * FROM t" ++ nl
         ++ ")" ++ nl
         ++ nl
         ++ "SELECT *" ++ nl
         ++ "FROM subquery" ++ nl
         ++ "LIMIT 5" ++ nl.
Proof.
  intros inner. repeat split.
  - apply strip_split.
  - intros H. now apply strip_first in H.
  - intros H. now apply strip_last in H.
  - apply str_of_int_parses.
Qed.

End EnforceLimit.

(** ** os.path *)

Section PathFacts.
Import PyStr OsPath.

Lemma mem_app (c : ascii) (a b : string) :
  mem c (a ++ b) = mem c a || mem c b.
Proof.
  induction a as [|x a IH]; simpl; [reflexivity|].
  rewrite IH. now destruct (Ascii.eqb c x).
Qed.

Lemma mem_string_cons (c x : ascii) (s : string) :
  mem c (String x s) = Ascii.eqb c x || mem c s.
Proof. reflexivity. Qed.

Lemma rfind_from_absent (i : Z) (c : ascii) (s : string) :
  mem c s = false → rfind_from i c s = (-1)%Z.
Proof.
  revert i. induction s as [|x s IH]; intros i; simpl; [reflexivity|].
  intros [Hx Hs]%orb_false_elim. rewrite (IH _ Hs). simpl.
  now rewrite Ascii.eqb_sym, Hx.
Qed.

(** The last occurrence: nothing equal to [c] follows it. *)
Lemma rfind_from_last (i : Z) (c : ascii) (a b : string) :
  (0 ≤ i)%Z → mem c b = false →
  rfind_from i c (a ++ String c b) = (i + Z.of_nat (String.length a))%Z.
Proof.
  revert i. induction a as [|x a IH]; intros i Hi Hb; simpl.
  - rewrite (rfind_from_absent _ _ _ Hb). simpl.
    rewrite Ascii.eqb_refl. lia.
  - rewrite IH by (lia || assumption).
    destruct (Z.leb_spec 0 (i + 1 + Z.of_nat (String.length a))); lia.
Qed.

Lemma drop_str_app (a b : string) : drop_str (String.length a) (a ++ b) = b.
Proof. induction a as [|x a IH]; simpl; [now destruct b | exact IH]. Qed.

Lemma take_str_app (a b : string) : take_str (String.length a) (a ++ b) = a.
Proof. induction a as [|x a IH]; simpl; [reflexivity | now rewrite IH]. Qed.

Lemma basename_no_sep (f : string) : mem "/" f = false → basename f = f.
Proof.
  intros H. unfold basename, rfind. now rewrite (rfind_from_absent _ _ _ H).
Qed.

Lemma basename_after_sep (dir f : string) :
  mem "/" f = false → basename (dir ++ String "/" f) = f.
Proof.
  intros H. unfold basename, rfind. rewrite rfind_from_last by (lia || assumption).
  replace (Z.to_nat (0 + Z.of_nat (String.length dir) + 1))
    with (String.length (dir ++ "/")).
  - change (String "/" f) with ("/" ++ f).
    rewrite <- append_assoc. apply drop_str_app.
  - induction dir as [|x dir IH]; simpl in *; lia.
Qed.

Lemma splitext_last_dot (name ext : string) :
  mem "/" name = false → mem "/" ext = false → mem "." ext = false →
  has_other "." name = true →
  splitext (name ++ String "." ext) = (name, String "." ext).
Proof.
  intros Hn He Hd Ho. unfold splitext, rfind.
  rewrite (rfind_from_absent _ "/"%char)
    by (rewrite mem_app, mem_string_cons, Hn, He; reflexivity).
  rewrite rfind_from_last by (lia || assumption).
  destruct (Z.ltb_spec (-1) (0 + Z.of_nat (String.length name))); [|lia].
  replace (Z.to_nat (-1 + 1)) with 0%nat by lia.
  replace (Z.to_nat (0 + Z.of_nat (String.length name) - (-1 + 1)))
    with (String.length name) by lia.
  replace (Z.to_nat (0 + Z.of_nat (String.length name)))
    with (String.length name) by lia.
  simpl drop_str at 1. rewrite take_str_app, Ho, drop_str_app.
  reflexivity.
Qed.

(** The stem of a path: the directory and the extension removed. *)
Lemma stem_of_path (dir name ext : string) :
  mem "/" name = false → mem "/" ext = false → mem "." ext = false →
  has_other "." name = true →
  fst (splitext (basename (dir ++ "/" ++ name ++ "." ++ ext))) = name
  ∧ fst (splitext (basename (name ++ "." ++ ext))) = name.
Proof.
  intros Hn He Hd Ho.
  assert (Hf : mem "/" (name ++ String "." ext) = false)
    by (rewrite mem_app, mem_string_cons, Hn, He; reflexivity).
  change ("/" ++ name ++ "." ++ ext) with (String "/" (name ++ String "." ext)).
  change ("." ++ ext) with (String "." ext).
  rewrite basename_after_sep, basename_no_sep by assumption.
  now rewrite splitext_last_dot.
Qed.

End PathFacts.

(** ** BaseFile *)

Section FileFacts.
Import PyStr OsPath BaseFile.

(** [__trim_df] takes a prefix of the rows, in their order, of at most
    [limit] rows for a non-negative [limit]. *)
Lemma trim_df_prefix (df : Frame) (limit : Z) :
  rows (__trim_df df limit) `prefix_of` rows df
  ∧ columns (__trim_df df limit) = columns df
  ∧ ((0 ≤ limit)%Z → (Z.of_nat (length (rows (__trim_df df limit))) ≤ limit)%Z).
Proof.
  unfold __trim_df, slice_to. simpl. repeat split.
  - destruct (0 <=? limit)%Z; apply prefix_take.
  - intros H. destruct (Z.leb_spec 0 limit); [|lia].
    rewrite length_take. lia.
Qed.

(** [_read] never looks at its [limit]. *)
Lemma read_limit_irrelevant run_reader input format (limit limit' : Z) kwargs :
  _read run_reader input format limit kwargs
  = _read run_reader input format limit' kwargs.
Proof. reflexivity. Qed.

(** C3, on the code: [_read] with [limit = 1] of a source that holds
    three rows returns all three of them; [__trim_df], which would keep
    the first row only, is not called. *)
Example read_returns_rows_beyond_limit :
  _read reader_of_three_rows (Path "t.csv") (Some "csv") 1 ∅ = inr three_rows
  ∧ length (rows three_rows) = 3
  ∧ rows (__trim_df three_rows 1) = [[VInt 1]].
Proof. repeat split. Qed.

Lemma setdefault_lookup (k : string) (v : PyVal) (kwargs : gmap string PyVal) :
  setdefault k v kwargs !! k = Some (default v (kwargs !! k))
  ∧ ∀ k', k' ≠ k → setdefault k v kwargs !! k' = kwargs !! k'.
Proof.
  unfold setdefault. destruct (kwargs !! k) as [u|] eqn:Hk; simpl.
  - split; [exact Hk | reflexivity].
  - split; [apply lookup_insert_eq | intros k' Hne; now apply lookup_insert_ne].
Qed.

(** C8, on the code: with the HDF5 format and an ordinary stream as
    target (an [io.BytesIO], say, which is no instance of [typing.IO]),
    [_write] does not raise the [ValueError] of its stream guard: the
    guard is passed over and [os.path.basename] raises [TypeError]. The
    guard fires only for an instance of [typing.IO]. For a polars frame
    [_write] raises [AttributeError] before it reaches the guard,
    whatever the target. No writer is called in any of these cases. *)
Theorem write_hdf5_to_buffer_skips_guard (f : Frame) (type_name : string)
    (kwargs : gmap string PyVal) (log : list WriteCall) :
  _write (PandasFrame f) (Some (FileFormat_value HDF5)) (Buffer type_name) kwargs log
  = (inl (TypeError ("expected str, bytes or os.PathLike object, not " ++ type_name)),
     log)
  ∧ (∀ id, _write (PandasFrame f) (Some (FileFormat_value HDF5)) (Stream id) kwargs log
           = (inl (ValueError "Cannot write HDF5 file to buffer of any type."), log))
  ∧ (∀ output, _write (PolarsFrame f) (Some (FileFormat_value HDF5)) output kwargs log
               = (inl (AttributeError "write_hdf5"), log))
  ∧ _write (PandasFrame three_rows) (Some "hdf5") (Buffer "BytesIO") ∅ []
    = (inl (TypeError "expected str, bytes or os.PathLike object, not BytesIO"), []).
Proof.
  split; [reflexivity|]. split; [intros id; reflexivity|].
  split; [intros output; reflexivity | reflexivity].
Qed.

(** C9, as stated, fails: a caller who sets
    [allow_truncated_timestamps=False] and leaves [coerce_timestamps]
    unset has the option replaced by [True]. *)
Lemma write_parquet_overrides_allow_truncated :
  let kwargs : gmap string PyVal := {[ "allow_truncated_timestamps" := VBool false ]} in
  ∃ kwargs',
    _write (PandasFrame three_rows) (Some "parquet") (Path "t.parquet") kwargs []
    = (inr tt, [mkWriteCall to_parquet (PandasFrame three_rows) (Path "t.parquet") kwargs'])
    ∧ kwargs !! "allow_truncated_timestamps" = Some (VBool false)
    ∧ kwargs' !! "allow_truncated_timestamps" = Some (VBool true).
Proof.
  eexists. split; [reflexivity|]. split; reflexivity.
Qed.

(** C9, amended: when a pandas frame is written as PARQUET (the format
    given, or omitted), the writer [to_parquet] is called once; if the
    caller has not set [coerce_timestamps], the options it receives are
    the caller's with [coerce_timestamps="ms"] and
    [allow_truncated_timestamps=True] set, the latter replacing a value
    the caller gave for it; if the caller has set [coerce_timestamps],
    the options are the caller's, unchanged; every other option is
    passed through unchanged in both cases. *)
Theorem write_parquet_timestamp_defaults (f : Frame) (format : option string)
    (output : FileObj) (kwargs : gmap string PyVal) (log : list WriteCall) :
  format = None ∨ format = Some (FileFormat_value PARQUET) →
  ∃ kwargs',
    _write (PandasFrame f) format output kwargs log
    = (inr tt, (log ++ [mkWriteCall to_parquet (PandasFrame f) output kwargs'])%list)
    ∧ (kwargs !! "coerce_timestamps" = None →
       kwargs' = <["allow_truncated_timestamps" := VBool true]>
                   (<["coerce_timestamps" := VStr "ms"]> kwargs))
    ∧ (is_Some (kwargs !! "coerce_timestamps") → kwargs' = kwargs)
    ∧ (∀ k, k ≠ "coerce_timestamps" → k ≠ "allow_truncated_timestamps" →
            kwargs' !! k = kwargs !! k).
Proof.
  intros Hf.
  assert (Hw : _write (PandasFrame f) format output kwargs log
               = _write (PandasFrame f) (Some (FileFormat_value PARQUET))
                        output kwargs log)
    by (destruct Hf as [-> | ->]; reflexivity).
  rewrite Hw. unfold _write. simpl.
  destruct (kwargs !! "coerce_timestamps") as [v|] eqn:Hc.
  - exists kwargs. split; [reflexivity|]. split; [discriminate|].
    split; [reflexivity|]. reflexivity.
  - eexists. split; [reflexivity|]. split; [reflexivity|].
    split; [intros [? [=]]|].
    intros k H1 H2. rewrite !lookup_insert_ne by congruence. reflexivity.
Qed.

Lemma write_parquet_timestamp_defaults_witness :
  ∃ kwargs',
    _write (PandasFrame three_rows) None (Path "t.parquet") ∅ []
    = (inr tt, ([] ++ [mkWriteCall to_parquet (PandasFrame three_rows)
                                   (Path "t.parquet") kwargs'])%list)
    ∧ ((∅ : gmap string PyVal) !! "coerce_timestamps" = None →
       kwargs' = <["allow_truncated_timestamps" := VBool true]>
                   (<["coerce_timestamps" := VStr "ms"]> ∅))
    ∧ (is_Some ((∅ : gmap string PyVal) !! "coerce_timestamps") → kwargs' = ∅)
    ∧ (∀ k, k ≠ "coerce_timestamps" → k ≠ "allow_truncated_timestamps" →
            kwargs' !! k = (∅ : gmap string PyVal) !! k).
Proof.
  apply (write_parquet_timestamp_defaults three_rows None (Path "t.parquet") ∅ []).
  left. reflexivity.
Defined.

End FileFacts.

(** ** BaseSQLDatabase *)

Section SampleFacts.
Import PyStr BaseSQLDatabase.

(** C7: [sample] hands [load] exactly the string
    [SELECT * FROM schema.table LIMIT size;], with the decimal rendering
    of [size], and the caller's keyword arguments, and returns what
    [load] returns; a connector that records its queries records that
    one string, which for [sample("public", "users", 3)] is
    [SELECT * FROM public.users LIMIT 3;]. *)
Theorem sample_issues_limit_query `{Loader Self} (self : Self)
    (schema table : string) (size : Z) (kwargs : gmap string PyVal) :
  sample self schema table size kwargs
  = load self ("SELECT * FROM " ++ schema ++ "." ++ table
                 ++ " LIMIT " ++ str_of_int size ++ ";") kwargs
  ∧ (∀ log : QueryLog,
       snd (sample log schema table size kwargs)
       = (log ++ [("SELECT * FROM " ++ schema ++ "." ++ table
                     ++ " LIMIT " ++ str_of_int size ++ ";")%string])%list)
  ∧ Z.of_int <$> NilZero.int_of_string (str_of_int size) = Some size
  ∧ snd (sample ([] : QueryLog) "public" "users" 3 kwargs)
    = ["SELECT * FROM public.users LIMIT 3;"].
Proof.
  repeat split. apply str_of_int_parses.
Qed.

End SampleFacts.

Section CleanColumnNameFacts.
Import PyStr BaseSQLDatabase.

Variable clean_name : string → bool → string.
Variable SQL_RESERVED_WORDS : gset string.

(** C6: for a word whose cleaned name, upper-cased, is reserved, the
    sanitizer with default options returns the cleaned name with an
    underscore in front; with [allow_reserved_words=True] it returns the
    cleaned name; with [auto_clean_name=False] it returns the word
    itself, whatever the other options. *)
Theorem clean_column_name_reserved (w : string) :
  upper (clean_name w false) ∈ SQL_RESERVED_WORDS →
  _clean_column_name_default clean_name SQL_RESERVED_WORDS w
  = "_" ++ clean_name w false
  ∧ _clean_column_name clean_name SQL_RESERVED_WORDS w true true false
    = clean_name w false
  ∧ ∀ allow_reserved_words case_sensitive,
      _clean_column_name clean_name SQL_RESERVED_WORDS
        w allow_reserved_words false case_sensitive = w.
Proof.
  intros Hw. unfold _clean_column_name_default, _clean_column_name.
  cbn [negb andb]. rewrite (bool_decide_eq_true_2 _ Hw). auto.
Qed.


End CleanColumnNameFacts.

(** No word of [reserved_words_model] starts with an underscore. *)
Section CleanNameModel.
Import PyStr.

Lemma reserved_words_model_no_underscore (w : string) :
  w ∈ reserved_words_model → first_char w ≠ Some "_"%char.
Proof.
  unfold reserved_words_model. rewrite !elem_of_union, !elem_of_singleton.
  intros H. repeat destruct H as [H| ->]; try subst w; discriminate.
Qed.

End CleanNameModel.

Section CleanColumnNameWitnesses.
Import PyStr BaseSQLDatabase.

Lemma clean_column_name_reserved_witness :
  upper (clean_name_model "Select" false) ∈ reserved_words_model
  ∧ _clean_column_name_default clean_name_model reserved_words_model "Select"
    = "_select"
  ∧ _clean_column_name clean_name_model reserved_words_model "Select" true true false
    = "select"
  ∧ _clean_column_name clean_name_model reserved_words_model "Select" false false false
    = "Select".
Proof.
  assert (Hin : upper (clean_name_model "Select" false) ∈ reserved_words_model)
    by (apply (bool_decide_unpack _); vm_compute; exact I).
  destruct (clean_column_name_reserved clean_name_model reserved_words_model
              "Select" Hin) as [H1 [H2 H3]].
  split; [exact Hin|]. split; [exact H1|]. split; [exact H2|].
  exact (H3 false false).
Defined.



End CleanColumnNameWitnesses.

(** ** BaseSQLConnection *)

Section ConnectionFacts.
Import BaseSQLConnection.
Context {Handle : Type}.

Local Close Scope string_scope.

Implicit Types (self : Conn Handle) (log : list (Event Handle))
  (st : State Handle) (h : Handle) (cs : list (Call Handle)).

Ltac run_method :=
  unfold close, conn, commit, rollback, open, try_except_AttributeError,
    in_dict, getattr, setattr, delattr, get_self, emit, throw,
    mbind, M_bind, mret, M_ret.

Ltac step_method H :=
  repeat first [rewrite H | progress cbv beta iota zeta delta [fst snd]].

(** [conn] reads [_ctx] and changes nothing. *)
Lemma conn_lookup st :
  conn st
  = (match __dict__ (fst st) !! "_ctx" with
     | Some h => inr h
     | None => inl not_connected
     end, st).
Proof.
  destruct st as [self log]. run_method. cbn [fst snd].
  destruct (__dict__ self !! "_ctx"); reflexivity.
Qed.

(** [close] returns normally, drops [_ctx] and logs the driver call and
    the separator. *)
Lemma close_effect self log :
  close (self, log)
  = (inr tt,
     (mkConn (verbose self) (printer self) (settings self)
             (delete "_ctx" (__dict__ self)),
      log ++ released self ++ separator self)).
Proof.
  unfold released, separator. run_method.
  destruct (__dict__ self !! "_ctx") as [h|] eqn:Hctx;
    rewrite ?bool_decide_eq_true_2, ?bool_decide_eq_false_2
      by (rewrite ?Hctx; eauto using is_Some_None);
    step_method Hctx; cbn [verbose printer].
  - destruct (verbose self && exists_previous_message (printer self));
      rewrite <- ?app_assoc; reflexivity.
  - rewrite delete_id by assumption. destruct self as [v p s d]; cbn.
    destruct (v && exists_previous_message p);
      rewrite ?app_nil_r; reflexivity.
Qed.

Lemma open_effect self log h :
  open h (self, log)
  = (inr tt,
     (mkConn (verbose self) (printer self) (settings self)
             (<["_ctx" := h]> (__dict__ self)), log)).
Proof. reflexivity. Qed.

Lemma commit_keeps_self st : fst (snd (commit st)) = fst st.
Proof.
  destruct st as [self log]. unfold commit, mbind, M_bind.
  rewrite conn_lookup. cbn [fst snd].
  destruct (__dict__ self !! "_ctx"); reflexivity.
Qed.

Lemma rollback_keeps_self st : fst (snd (rollback st)) = fst st.
Proof.
  destruct st as [self log]. unfold rollback, mbind, M_bind.
  rewrite conn_lookup. cbn [fst snd].
  destruct (__dict__ self !! "_ctx"); reflexivity.
Qed.

(** What one call does to [_ctx]. *)
Lemma call_ctx (c : Call Handle) st :
  __dict__ (fst (snd (call c st))) !! "_ctx"
  = open_handle [c] (__dict__ (fst st) !! "_ctx").
Proof.
  destruct st as [self log]. destruct c as [h| | | |]; unfold call.
  - rewrite open_effect. simpl. apply lookup_insert_eq.
  - rewrite close_effect. simpl. apply lookup_delete_eq.
  - now rewrite commit_keeps_self.
  - now rewrite rollback_keeps_self.
  - unfold mbind, M_bind, mret, M_ret. rewrite conn_lookup.
    cbn [fst snd open_handle].
    destruct (__dict__ self !! "_ctx") eqn:Hctx; cbn [fst snd]; exact Hctx.
Qed.

Lemma open_handle_app cs cs' (acc : option Handle) :
  open_handle (cs ++ cs') acc = open_handle cs' (open_handle cs acc).
Proof.
  revert acc. induction cs as [|c cs IH]; intros acc; [reflexivity|].
  destruct c; simpl; apply IH.
Qed.

(** The invariant of a run: [_ctx] holds the handle of the last [open]
    that no [close] followed. *)
Lemma run_ctx cs st :
  __dict__ (fst (run cs st)) !! "_ctx"
  = open_handle cs (__dict__ (fst st) !! "_ctx").
Proof.
  revert st. induction cs as [|c cs IH]; intros st; [reflexivity|].
  change (run (c :: cs) st) with (run cs (snd (call c st))).
  rewrite IH, call_ctx. now destruct c.
Qed.

(** C2: on a connector fresh from [__init__], [conn] raises the
    connection error; after [open] it returns the handle [open] stored;
    after [close] it raises the connection error again; after any run of
    calls it returns the handle of the last [open] if no [close] followed
    it, and raises otherwise. In every state it either returns the handle
    stored under [_ctx] or raises: there is no third result. It leaves
    the connector as it is. *)
Theorem conn_follows_open_close (verbose : bool) (p : VerbosePrintHandler)
    (kwargs : gmap string PyVal) log :
  let fresh : State Handle := (__init__ verbose p kwargs, log) in
  conn fresh = (inl not_connected, fresh)
  ∧ (∀ st h, conn (snd (open h st)) = (inr h, snd (open h st)))
  ∧ (∀ st, conn (snd (close st)) = (inl not_connected, snd (close st)))
  ∧ (∀ cs, conn (run cs fresh)
           = (match open_handle cs None with
              | Some h => inr h
              | None => inl not_connected
              end, run cs fresh))
  ∧ (∀ cs acc, open_handle (cs ++ [CallClose]) acc = None)
  ∧ (∀ cs acc h, open_handle (cs ++ [CallOpen h]) acc = Some h)
  ∧ (∀ st, (∃ h, __dict__ (fst st) !! "_ctx" = Some h ∧ conn st = (inr h, st))
           ∨ (__dict__ (fst st) !! "_ctx" = None
              ∧ conn st = (inl not_connected, st))).
Proof.
  intros fresh. repeat split.
  - intros [self l] h. rewrite conn_lookup, open_effect. simpl.
    now rewrite lookup_insert_eq.
  - intros [self l]. rewrite conn_lookup, close_effect. simpl.
    now rewrite lookup_delete_eq.
  - intros cs. rewrite conn_lookup, run_ctx. reflexivity.
  - intros cs acc. now rewrite open_handle_app.
  - intros cs acc h. now rewrite open_handle_app.
  - intros st. rewrite conn_lookup.
    destruct (__dict__ (fst st) !! "_ctx") as [h|]; [left; exists h|right]; auto.
Qed.


End ConnectionFacts.

Section CloseTwice.
Import BaseSQLConnection.

Local Close Scope string_scope.


End CloseTwice.

(** * Further properties *)

(** ** Format resolution *)

Section FormatResolution.
Import PyStr OsPath BaseFile.

Lemma from_extension_inv (ext : string) (f : FileFormat) :
  from_extension ext = inr f → (ext, f) ∈ known_extensions.
Proof.
  intros Hf.
  destruct (decide (ext ∈ known_extensions.*1)) as [Hin|Hout].
  - apply list_elem_of_fmap in Hin as [[e g] [-> Hin]]. simpl in *.
    pose proof (from_extension_known _ _ Hin) as Hg.
    rewrite Hg in Hf. now injection Hf as ->.
  - rewrite (from_extension_unknown _ Hout) in Hf. discriminate.
Qed.

(** X1: a format tag's own string value resolves back to the tag for every
    tag but [EXCEL], whose value [excel] is not an extension
    [from_extension] accepts; conversely an extension that resolves to a
    tag other than [EXCEL] is that tag's value, and every tag is the
    result of some extension. *)
Theorem from_extension_value_round_trip (f : FileFormat) :
  (from_extension (FileFormat_value f) = inr f ↔ f ≠ EXCEL)
  ∧ from_extension (FileFormat_value EXCEL)
    = inl (ValueError "None file format found for this file extension: excel")
  ∧ (∀ ext, from_extension ext = inr f → f ≠ EXCEL → ext = FileFormat_value f)
  ∧ (∃ ext, from_extension ext = inr f).
Proof.
  split; [|split; [reflexivity|split]].
  - destruct f; split; intros H; try discriminate; try reflexivity;
      try congruence.
  - intros ext Hext Hf. apply from_extension_inv in Hext.
    unfold known_extensions in Hext.
    repeat (apply elem_of_cons in Hext as [[= -> ->] | Hext]; [reflexivity || congruence|]).
    now apply elem_of_nil in Hext.
  - destruct f;
      [exists "csv" | exists "json" | exists "parquet" | exists "hdf5"
       | exists "xml" | exists "xlsx"]; reflexivity.
Qed.

Lemma has_other_all_in (c : ascii) (s : string) :
  all_in (String c "") s = true → has_other c s = false.
Proof.
  induction s as [|x s IH]; simpl; [reflexivity|].
  rewrite orb_false_r. intros [Hx Hs]%andb_true_iff.
  now rewrite Hx, IH.
Qed.

Lemma mem_all_in_other (c c' : ascii) (s : string) :
  all_in (String c "") s = true → c' ≠ c → mem c' s = false.
Proof.
  intros Hs Hc. induction s as [|x s IH]; simpl in *; [reflexivity|].
  rewrite orb_false_r in Hs. apply andb_true_iff in Hs as [Hx Hs].
  apply Ascii.eqb_eq in Hx as ->.
  apply Ascii.eqb_neq in Hc. now rewrite Hc, IH.
Qed.

(** X2: for a path [dir/name.ext] the format is resolved from [ext]
    alone: [_get_file_format] returns what [from_extension] returns for
    [ext], a tag or the error. *)
Theorem get_file_format_of_extension (dir name ext : string) :
  mem "/" name = false → mem "/" ext = false → mem "." ext = false →
  has_other "." name = true →
  _get_file_format (dir ++ "/" ++ name ++ "." ++ ext) = from_extension ext
  ∧ _get_file_format (name ++ "." ++ ext) = from_extension ext.
Proof.
  intros Hn He Hd Ho. unfold _get_file_format.
  assert (Hf : mem "/" (name ++ String "." ext) = false)
    by (rewrite mem_app, mem_string_cons, Hn, He; reflexivity).
  change ("/" ++ name ++ "." ++ ext) with (String "/" (name ++ String "." ext)).
  change ("." ++ ext) with (String "." ext).
  rewrite basename_after_sep, basename_no_sep by assumption.
  rewrite splitext_last_dot by assumption. split; reflexivity.
Qed.

Lemma get_file_format_of_extension_witness :
  _get_file_format ("data" ++ "/" ++ "sales.2024" ++ "." ++ "xlsx") = from_extension "xlsx"
  ∧ _get_file_format ("sales.2024" ++ "." ++ "xlsx") = from_extension "xlsx".
Proof.
  apply (get_file_format_of_extension "data" "sales.2024" "xlsx"); reflexivity.
Defined.

Lemma splitext_no_extension (dots rest : string) :
  all_in "." dots = true → mem "." rest = false → mem "/" rest = false →
  splitext rest = (rest, "")
  ∧ splitext (dots ++ String "." rest) = (dots ++ String "." rest, "").
Proof.
  intros Hd Hr Hs. split; unfold splitext, rfind.
  - now rewrite !rfind_from_absent by assumption.
  - rewrite (rfind_from_absent _ "/"%char)
      by (rewrite mem_app, mem_string_cons, Hs,
            (mem_all_in_other "." "/" dots Hd) by discriminate; reflexivity).
    rewrite rfind_from_last by (lia || assumption).
    destruct (Z.ltb_spec (-1) (0 + Z.of_nat (String.length dots))); [|lia].
    replace (Z.to_nat (-1 + 1)) with 0%nat by lia.
    replace (Z.to_nat (0 + Z.of_nat (String.length dots) - (-1 + 1)))
      with (String.length dots) by lia.
    simpl drop_str at 1. now rewrite take_str_app, has_other_all_in.
Qed.

(** X3: a file name without an extension, and a file name that only
    starts with dots (a hidden file such as [.csv]), have the empty
    extension, which [_get_file_format] rejects with [ValueError], in
    whatever directory the file is. *)
Theorem get_file_format_without_extension (dir dots rest : string) :
  all_in "." dots = true → mem "." rest = false → mem "/" rest = false →
  let err := inl (ValueError "None file format found for this file extension: ") in
  _get_file_format rest = err
  ∧ _get_file_format (dir ++ "/" ++ rest) = err
  ∧ _get_file_format (dots ++ "." ++ rest) = err
  ∧ _get_file_format (dir ++ "/" ++ dots ++ "." ++ rest) = err.
Proof.
  intros Hd Hr Hs err. unfold _get_file_format.
  destruct (splitext_no_extension dots rest Hd Hr Hs) as [H1 H2].
  assert (Hf : mem "/" (dots ++ String "." rest) = false)
    by (rewrite mem_app, mem_string_cons, Hs,
          (mem_all_in_other "." "/" dots Hd) by discriminate; reflexivity).
  change ("/" ++ rest) with (String "/" rest).
  change ("/" ++ dots ++ "." ++ rest) with (String "/" (dots ++ String "." rest)).
  change ("." ++ rest) with (String "." rest).
  rewrite !basename_after_sep, !basename_no_sep by assumption.
  rewrite H1, H2. repeat split.
Qed.

Lemma get_file_format_without_extension_witness :
  let err := inl (ValueError "None file format found for this file extension: ") in
  _get_file_format "README" = err
  ∧ _get_file_format ("docs" ++ "/" ++ "README") = err
  ∧ _get_file_format ("" ++ "." ++ "csv") = err
  ∧ _get_file_format ("docs" ++ "/" ++ "" ++ "." ++ "csv") = err.
Proof.
  apply (get_file_format_without_extension "docs" "" "README"); reflexivity.
Defined.

(** X4: the directory part of a path has no influence on the format:
    only the last component is looked at, so a dot in a directory name is
    never taken for the start of an extension. *)
Theorem get_file_format_ignores_directory (dir file : string) :
  mem "/" file = false →
  _get_file_format (dir ++ "/" ++ file) = _get_file_format file.
Proof.
  intros Hf. unfold _get_file_format.
  change ("/" ++ file) with (String "/" file).
  now rewrite basename_after_sep, basename_no_sep.
Qed.

Lemma get_file_format_ignores_directory_witness :
  _get_file_format ("archive.d" ++ "/" ++ "table.json") = _get_file_format "table.json"
  ∧ _get_file_format "table.json" = inr JSON.
Proof.
  split; [|reflexivity].
  apply (get_file_format_ignores_directory "archive.d" "table.json"). reflexivity.
Defined.

(** [__get_reader] succeeds exactly on the six format values. *)
Lemma get_reader_value (f : FileFormat) :
  __get_reader (Some (FileFormat_value f)) = inr (FileFormat_reader f).
Proof. now destruct f. Qed.

Lemma format_is_value (s : string) (f : FileFormat) :
  format_is (Some s) f = true → s = FileFormat_value f.
Proof. simpl. apply String.eqb_eq. Qed.

Lemma get_reader_inv (format : option string) (r : Reader) :
  __get_reader format = inr r →
  ∃ f, format = Some (FileFormat_value f) ∧ r = FileFormat_reader f.
Proof.
  unfold __get_reader. destruct format as [s|]; [|discriminate].
  repeat match goal with
  | |- context [format_is (Some s) ?f] =>
      destruct (format_is (Some s) f) eqn:?;
      [ match goal with H : format_is _ _ = true |- _ =>
          apply format_is_value in H as -> end;
        intros [= <-]; now exists f |]
  end.
  discriminate.
Qed.

(** X5: [__get_reader] returns a reader exactly for the six format
    values, a different reader for each; for [None] and for every other
    string, the extensions [xls] and [xlsx] included, it raises
    [ValueError] with the format in the message. *)
Theorem get_reader_exactly_on_format_values (format : option string) :
  (∀ r, __get_reader format = inr r
        ↔ ∃ f, format = Some (FileFormat_value f) ∧ r = FileFormat_reader f)
  ∧ ((∀ f, format ≠ Some (FileFormat_value f)) →
     __get_reader format
     = inl (ValueError ("Invalid format '" ++ str_of_format format ++ "' specified.")))
  ∧ (∀ f g, FileFormat_reader f = FileFormat_reader g → f = g)
  ∧ __get_reader (Some "xlsx") = inl (ValueError "Invalid format 'xlsx' specified.")
  ∧ __get_reader None = inl (ValueError "Invalid format 'None' specified.").
Proof.
  split; [|split; [|split; [|split; reflexivity]]].
  - intros r. split; [apply get_reader_inv|].
    intros [f [-> ->]]. apply get_reader_value.
  - intros Hf. destruct (__get_reader format) as [e|r] eqn:Hr.
    + unfold __get_reader in Hr.
      repeat match type of Hr with
      | context [format_is format ?f] =>
          destruct (format_is format f); [discriminate|]
      end.
      symmetry. exact Hr.
    + apply get_reader_inv in Hr as [f [Hf' _]]. now destruct (Hf f).
  - intros f g. destruct f, g; simpl; congruence.
Qed.

(** X6: [_read] returns exactly the outcome of the reader of the format,
    the frame or the exception the reader raises; with a format for which
    there is no reader it raises [ValueError], whatever the reader would
    do. *)
Theorem read_is_reader_outcome
    (run_reader : Reader → FileObj → gmap string PyVal → Result Frame)
    (input : FileObj) (limit : Z) (kwargs : gmap string PyVal) :
  (∀ f, _read run_reader input (Some (FileFormat_value f)) limit kwargs
        = run_reader (FileFormat_reader f) input kwargs)
  ∧ (∀ format, (∀ f, format ≠ Some (FileFormat_value f)) →
       _read run_reader input format limit kwargs
       = inl (ValueError ("Invalid format '" ++ str_of_format format ++ "' specified."))).
Proof.
  assert (Hv : ∀ f, _read run_reader input (Some (FileFormat_value f)) limit kwargs
                    = run_reader (FileFormat_reader f) input kwargs).
  { intros f. unfold _read. rewrite get_reader_value. simpl.
    unfold mbind, Result_bind, ret, mret, Result_ret.
    now destruct (run_reader _ _ _). }
  split; [exact Hv|].
  intros format Hf. unfold _read.
  destruct (__get_reader format) as [e|r] eqn:Hr.
  - unfold __get_reader in Hr.
    repeat match type of Hr with
    | context [format_is format ?f] =>
        destruct (format_is format f); [discriminate|]
    end.
    injection Hr as <-. reflexivity.
  - apply get_reader_inv in Hr as [f [Hf' _]]. now destruct (Hf f).
Qed.

End FormatResolution.

(** ** Paths in general *)

Section PathGeneral.
Import PyStr OsPath BaseFile.

Lemma last_occurrence (c : ascii) (s : string) :
  mem c s = true → ∃ a b, s = a ++ String c b ∧ mem c b = false.
Proof.
  induction s as [|x s IH]; simpl; [discriminate|].
  destruct (mem c s) eqn:Hs.
  - intros _. destruct (IH eq_refl) as [a [b [-> Hb]]].
    exists (String x a), b. split; [reflexivity | exact Hb].
  - rewrite orb_false_r. intros ->%Ascii.eqb_eq.
    exists "", s. split; [reflexivity | exact Hs].
Qed.

Lemma drop_str_0 (s : string) : drop_str 0 s = s.
Proof. now destruct s. Qed.

Lemma take_drop_str (n : nat) (s : string) : take_str n s ++ drop_str n s = s.
Proof.
  revert s. induction n as [|n IH]; intros [|x s]; simpl; try reflexivity.
  now rewrite IH.
Qed.

Lemma mem_take_str (c : ascii) (n : nat) (s : string) :
  mem c s = false → mem c (take_str n s) = false.
Proof.
  revert s. induction n as [|n IH]; intros [|x s]; simpl; try reflexivity.
  intros [Hx Hs]%orb_false_elim. now rewrite Hx, IH.
Qed.

(** [basename] is the part after the last separator. *)
Lemma basename_suffix (p : string) :
  mem "/" (basename p) = false ∧ ∃ pre, p = pre ++ basename p.
Proof.
  destruct (mem "/" p) eqn:Hp.
  - destruct (last_occurrence _ _ Hp) as [a [b [-> Hb]]].
    rewrite basename_after_sep by assumption. split; [exact Hb|].
    exists (a ++ "/"). now rewrite append_assoc.
  - rewrite basename_no_sep by assumption. split; [exact Hp | now exists ""].
Qed.

(** [splitext] of a name without separator: the extension is empty, or a
    dot followed by characters that are not dots. *)
Lemma splitext_shape (b : string) :
  mem "/" b = false →
  fst (splitext b) ++ snd (splitext b) = b
  ∧ mem "/" (fst (splitext b)) = false
  ∧ (snd (splitext b) = ""
     ∨ ∃ e, snd (splitext b) = String "." e ∧ mem "." e = false ∧ mem "/" e = false).
Proof.
  intros Hb. unfold splitext, rfind.
  rewrite (rfind_from_absent _ "/"%char) by assumption.
  destruct (mem "." b) eqn:Hd.
  - destruct (last_occurrence _ _ Hd) as [a [e [-> He]]].
    rewrite rfind_from_last by (lia || assumption).
    destruct (Z.ltb_spec (-1) (0 + Z.of_nat (String.length a))); [|lia].
    replace (Z.to_nat (-1 + 1)) with 0%nat by lia.
    replace (Z.to_nat (0 + Z.of_nat (String.length a) - (-1 + 1)))
      with (String.length a) by lia.
    replace (Z.to_nat (0 + Z.of_nat (String.length a)))
      with (String.length a) by lia.
    rewrite drop_str_0, !take_str_app, drop_str_app.
    rewrite mem_app, mem_string_cons in Hb.
    apply orb_false_elim in Hb as [Ha [_ He']%orb_false_elim].
    destruct (has_other "." a); cbn [fst snd].
    + split; [reflexivity|].
      split; [exact Ha|]. right. now exists e.
    + rewrite append_empty_r. split; [reflexivity|].
      split; [|now left].
      rewrite mem_app, mem_string_cons, Ha, He'. reflexivity.
  - rewrite rfind_from_absent by assumption. cbn [fst snd].
    rewrite append_empty_r. auto.
Qed.

(** X7: for every path, the key under which an HDF5 export stores the
    frame when the caller gives none contains no path separator, and it
    is the file name without its extension: followed by the extension it
    gives back the last component of the path. The export is that of a
    frame that has an HDF5 writer, a pandas frame. *)
Theorem write_hdf5_default_key (df : Table) (p : string) (w : Writer)
    (kwargs : gmap string PyVal) (log : list WriteCall) :
  __get_writer df (Some (FileFormat_value HDF5)) = inr (Some w) →
  kwargs !! "key" = None →
  ∃ key,
    _write df (Some (FileFormat_value HDF5)) (Path p) kwargs log
    = (inr tt, (log ++ [mkWriteCall w df (Path p) (<["key" := VStr key]> kwargs)])%list)
    ∧ mem "/" key = false
    ∧ key ++ snd (splitext (basename p)) = basename p
    ∧ ∃ pre, p = pre ++ key ++ snd (splitext (basename p)).
Proof.
  intros Hw Hk. exists (fst (splitext (basename p))).
  destruct (basename_suffix p) as [Hb [pre Hpre]].
  destruct (splitext_shape _ Hb) as [Hcat [Hsep _]].
  split; [|split; [exact Hsep|split; [exact Hcat|]]].
  - unfold _write. rewrite Hw. simpl.
    unfold setdefault. rewrite Hk. reflexivity.
  - exists pre. now rewrite Hcat.
Qed.

Lemma write_hdf5_default_key_witness :
  ∃ key,
    _write (PandasFrame three_rows) (Some (FileFormat_value HDF5))
      (Path "a/b.c/.store") ∅ []
    = (inr tt, ([] ++ [mkWriteCall to_hdf (PandasFrame three_rows)
                         (Path "a/b.c/.store") (<["key" := VStr key]> ∅)])%list)
    ∧ mem "/" key = false
    ∧ key ++ snd (splitext (basename "a/b.c/.store")) = basename "a/b.c/.store"
    ∧ ∃ pre, "a/b.c/.store" = pre ++ key ++ snd (splitext (basename "a/b.c/.store")).
Proof.
  apply (write_hdf5_default_key (PandasFrame three_rows) "a/b.c/.store" to_hdf ∅ []);
    reflexivity.
Defined.

(** X8: for every path, the extension [_get_file_format] resolves is the
    end of the path after the last dot of the last component, and it
    contains neither a dot nor a separator. *)
Theorem get_file_format_extension_shape (p : string) :
  ∃ ext pre,
    _get_file_format p = from_extension ext
    ∧ mem "." ext = false ∧ mem "/" ext = false
    ∧ p = pre ++ ext.
Proof.
  unfold _get_file_format.
  destruct (basename_suffix p) as [Hb [pre Hpre]].
  destruct (splitext_shape _ Hb) as [Hcat [_ [He | [e [He [Hd Hs]]]]]].
  - exists "", p. rewrite He. repeat split. now rewrite append_empty_r.
  - exists e, (pre ++ fst (splitext (basename p)) ++ ".").
    rewrite He. repeat split; try assumption.
    rewrite Hpre at 1. rewrite <- Hcat at 1. rewrite He.
    now rewrite !append_assoc.
Qed.

End PathGeneral.

(** ** Trimming and writing frames *)

Section TrimFacts.
Import BaseFile.

Local Close Scope string_scope.

(** X9: a frame with no more rows than the limit is returned as it is. *)
Theorem trim_df_within_limit (df : Frame) (limit : Z) :
  (Z.of_nat (length (rows df)) ≤ limit)%Z → __trim_df df limit = df.
Proof.
  intros H. unfold __trim_df, slice_to.
  destruct (Z.leb_spec 0 limit); [|lia].
  rewrite take_ge by lia. now destruct df.
Qed.

Lemma trim_df_within_limit_witness :
  (Z.of_nat (length (rows three_rows)) ≤ QUERY_ROW_LIMIT)%Z
  ∧ __trim_df three_rows QUERY_ROW_LIMIT = three_rows.
Proof.
  assert (H : (Z.of_nat (length (rows three_rows)) ≤ QUERY_ROW_LIMIT)%Z)
    by (vm_compute; discriminate).
  split; [exact H | exact (trim_df_within_limit three_rows QUERY_ROW_LIMIT H)].
Defined.

(** X10: trimming keeps the first rows in their order and all columns;
    the number of rows left is the smaller of the limit and the number of
    rows; trimming twice is trimming once to the smaller limit, so
    trimming is idempotent. *)
Theorem trim_df_twice (df : Frame) (a b : Z) :
  (0 ≤ a)%Z → (0 ≤ b)%Z →
  __trim_df (__trim_df df a) b = __trim_df df (Z.min a b)
  ∧ __trim_df (__trim_df df a) a = __trim_df df a
  ∧ Z.of_nat (length (rows (__trim_df df a)))
    = Z.min a (Z.of_nat (length (rows df)))
  ∧ rows (__trim_df df a) `prefix_of` rows df
  ∧ columns (__trim_df df a) = columns df.
Proof.
  intros Ha Hb. unfold __trim_df, slice_to. simpl.
  destruct (Z.leb_spec 0 a); [|lia]. destruct (Z.leb_spec 0 b); [|lia].
  destruct (Z.leb_spec 0 (Z.min a b)); [|lia].
  rewrite !take_take, length_take. repeat split.
  - do 2 f_equal. lia.
  - do 2 f_equal. lia.
  - lia.
  - apply prefix_take.
Qed.

Lemma trim_df_twice_witness :
  __trim_df (__trim_df three_rows 2) 1 = __trim_df three_rows (Z.min 2 1)
  ∧ __trim_df (__trim_df three_rows 2) 2 = __trim_df three_rows 2
  ∧ Z.of_nat (length (rows (__trim_df three_rows 2)))
    = Z.min 2 (Z.of_nat (length (rows three_rows)))
  ∧ rows (__trim_df three_rows 2) `prefix_of` rows three_rows
  ∧ columns (__trim_df three_rows 2) = columns three_rows.
Proof. apply (trim_df_twice three_rows 2 1); lia. Defined.

(** X11: a negative limit does not raise: it drops that many rows from
    the end and keeps the rows before them, none if the frame has no more
    rows than are dropped. *)
Theorem trim_df_negative_limit (df : Frame) (limit : Z) :
  (limit < 0)%Z →
  ∃ dropped,
    rows df = rows (__trim_df df limit) ++ dropped
    ∧ Z.of_nat (length dropped) = Z.min (- limit) (Z.of_nat (length (rows df)))
    ∧ Z.of_nat (length (rows (__trim_df df limit)))
      = Z.max 0 (Z.of_nat (length (rows df)) + limit).
Proof.
  intros H. unfold __trim_df, slice_to. simpl.
  destruct (Z.leb_spec 0 limit); [lia|].
  exists (drop (length (rows df) - Z.to_nat (- limit)) (rows df)).
  rewrite take_drop, length_drop, length_take. repeat split; lia.
Qed.

Lemma trim_df_negative_limit_witness :
  ∃ dropped,
    rows three_rows = rows (__trim_df three_rows (-1)) ++ dropped
    ∧ Z.of_nat (length dropped) = Z.min (- (-1)) (Z.of_nat (length (rows three_rows)))
    ∧ Z.of_nat (length (rows (__trim_df three_rows (-1))))
      = Z.max 0 (Z.of_nat (length (rows three_rows)) + (-1)).
Proof. apply (trim_df_negative_limit three_rows (-1)). lia. Defined.

End TrimFacts.

Section WriteFacts.
Import BaseFile.

Local Close Scope string_scope.

Lemma format_is_Some (s : string) (f : FileFormat) :
  format_is (Some s) f = bool_decide (s = FileFormat_value f).
Proof.
  unfold format_is. destruct (String.eqb_spec s (FileFormat_value f)).
  - now rewrite bool_decide_eq_true_2.
  - now rewrite bool_decide_eq_false_2.
Qed.

Lemma format_is_false (format : option string) (f : FileFormat) :
  format ≠ Some (FileFormat_value f) → format_is format f = false.
Proof.
  destruct format as [s|]; [|reflexivity]. intros H.
  rewrite format_is_Some. apply bool_decide_eq_false_2. congruence.
Qed.

(** The format [_write] works with: [PARQUET] when none is given. *)
Lemma get_writer_default_format (df : Table) :
  __get_writer df (Some (FileFormat_value PARQUET)) = __get_writer df None.
Proof. now destruct df. Qed.

Lemma get_writer_defaulted (df : Table) (format : option string) :
  __get_writer df
    match format with
    | Some _ => format
    | None => Some (FileFormat_value PARQUET)
    end
  = __get_writer df format.
Proof. destruct format; [reflexivity | apply get_writer_default_format]. Qed.

Lemma get_writer_None (df : Table) (format : option string) :
  __get_writer df format = inr None ↔ df = OtherObject.
Proof.
  destruct df; simpl; [| |tauto];
    (split; [|discriminate]);
    repeat (destruct (format_is format _); [discriminate|]); discriminate.
Qed.

Lemma get_writer_pandas (f : Frame) (format : option string) :
  ∃ w, __get_writer (PandasFrame f) format = inr (Some w).
Proof. simpl. repeat (destruct (format_is format _); [eauto|]). eauto. Qed.

(** On a polars frame the lookup raises for the two formats polars has no
    writer for. *)
Lemma get_writer_polars (f : Frame) (format : option string) :
  (format = Some (FileFormat_value HDF5)
   ∧ __get_writer (PolarsFrame f) format = inl (AttributeError "write_hdf5"))
  ∨ (format = Some (FileFormat_value XML)
     ∧ __get_writer (PolarsFrame f) format = inl (AttributeError "write_xml"))
  ∨ (format ≠ Some (FileFormat_value HDF5) ∧ format ≠ Some (FileFormat_value XML)
     ∧ ∃ w, __get_writer (PolarsFrame f) format = inr (Some w)).
Proof.
  destruct (decide (format = Some (FileFormat_value HDF5))) as [->|Hh];
    [left; split; reflexivity|].
  destruct (decide (format = Some (FileFormat_value XML))) as [->|Hx];
    [right; left; split; reflexivity|].
  right. right. split; [exact Hh|]. split; [exact Hx|]. simpl.
  rewrite (format_is_false _ _ Hh), (format_is_false _ _ Hx).
  repeat (destruct (format_is format _); [eauto|]). eauto.
Qed.


(** X12: [__get_writer] gives a pandas frame a writer for any format,
    and a polars frame a writer for any format but [hdf5] and [xml], for
    which the attribute access raises [AttributeError]. A format that is
    none of [csv], [json], [hdf5], [xml], [excel] (so [parquet], but also
    [None] and any unknown string) falls back to the engine's parquet
    writer without an error; an object that is neither kind of frame has
    no writer, and only such an object. *)
Theorem get_writer_falls_back_to_parquet (df : Table) (format : option string) :
  ((∀ f, f ∈ formats_with_own_writer → format ≠ Some (FileFormat_value f)) →
   __get_writer df format = inr (parquet_writer df))
  ∧ (__get_writer df format = inr None ↔ df = OtherObject)
  ∧ (∀ w, __get_writer df format = inr (Some w) →
          parquet_writer df = Some w
          ∨ ∃ f, f ∈ formats_with_own_writer ∧ format = Some (FileFormat_value f))
  ∧ (∀ f, df = PandasFrame f → ∃ w, __get_writer df format = inr (Some w))
  ∧ (∀ f, df = PolarsFrame f →
       ((∃ e, __get_writer df format = inl e)
        ↔ format = Some (FileFormat_value HDF5) ∨ format = Some (FileFormat_value XML))
       ∧ (format = Some (FileFormat_value HDF5) →
          __get_writer df format = inl (AttributeError "write_hdf5"))
       ∧ (format = Some (FileFormat_value XML) →
          __get_writer df format = inl (AttributeError "write_xml"))).
Proof.
  split; [|split; [|split; [|split]]].
  - intros H. unfold __get_writer, formats_with_own_writer in *.
    rewrite !format_is_false by (apply H; set_solver). now destruct df.
  - apply get_writer_None.
  - intros w Hw. unfold __get_writer in Hw.
    destruct format as [s|];
      [|left; destruct df; cbv in Hw; simpl; congruence].
    rewrite !format_is_Some in Hw. unfold formats_with_own_writer.
    repeat match type of Hw with
    | context [bool_decide (s = FileFormat_value ?f)] =>
        destruct (bool_decide_reflect (s = FileFormat_value f)) as [->|_];
        [right; exists f; split; [set_solver | reflexivity]|]
    end.
    left. destruct df; cbv in Hw; simpl; congruence.
  - intros f ->. apply get_writer_pandas.
  - intros f ->.
    destruct (get_writer_polars f format)
      as [[-> He]|[[-> He]|[Hh [Hx [w Hw]]]]].
    + split; [split; eauto|]. split; [trivial | discriminate].
    + split; [split; eauto|]. split; [discriminate | trivial].
    + split; [|split; intros; contradiction].
      rewrite Hw. split; [intros [e [=]] | intros [?|?]; contradiction].
Qed.

(** X13: outside the HDF5 format, and outside PARQUET for a pandas frame,
    [_write] with a writer for the frame and format calls that writer
    once, on the given output, with exactly the caller's options: a
    polars frame never receives the timestamp defaults, and neither does
    a pandas frame written with an unrecognised format string, although
    its writer is the parquet one. *)
Theorem write_passes_options_unchanged (df : Table) (format : option string)
    (output : FileObj) (kwargs : gmap string PyVal) (log : list WriteCall)
    (w : Writer) :
  format ≠ Some (FileFormat_value HDF5) →
  (BaseFile.is_pandas df = true →
   format ≠ None ∧ format ≠ Some (FileFormat_value PARQUET)) →
  __get_writer df format = inr (Some w) →
  _write df format output kwargs log
  = (inr tt, log ++ [mkWriteCall w df output kwargs]).
Proof.
  intros Hh Hp Hw. unfold _write. rewrite get_writer_defaulted, Hw.
  destruct format as [s|].
  - rewrite (format_is_false _ _ Hh).
    destruct (BaseFile.is_pandas df) eqn:Hdf.
    + destruct (Hp eq_refl) as [_ Hq]. rewrite (format_is_false _ _ Hq).
      reflexivity.
    + rewrite andb_false_r. reflexivity.
  - destruct (BaseFile.is_pandas df) eqn:Hdf; [now destruct (Hp eq_refl)|].
    reflexivity.
Qed.

Lemma write_passes_options_unchanged_witness :
  _write (PolarsFrame three_rows) None (Stream 0)
    {[ "compression" := VStr "zstd" ]} []
  = (inr tt, [] ++ [mkWriteCall write_parquet (PolarsFrame three_rows) (Stream 0)
                      {[ "compression" := VStr "zstd" ]}])
  ∧ _write (PandasFrame three_rows) (Some "pq") (Path "t.pq") ∅ []
    = (inr tt, [] ++ [mkWriteCall to_parquet (PandasFrame three_rows) (Path "t.pq") ∅]).
Proof.
  split.
  - apply write_passes_options_unchanged;
      [discriminate | discriminate | reflexivity].
  - apply write_passes_options_unchanged;
      [discriminate | intros _; split; discriminate | reflexivity].
Defined.

(** X14: given an object that is neither a pandas nor a polars frame,
    [_write] raises and calls no writer, for every format, output and
    options. With the HDF5 format the error depends on the target:
    [ValueError] for an instance of [typing.IO], the [TypeError] of
    [os.path.basename] for any other object that is no path, and for a
    path the [TypeError] of calling the writer that is not there; with
    any other format it is that last [TypeError]. *)
Theorem write_of_other_object_raises (format : option string) (output : FileObj)
    (kwargs : gmap string PyVal) (log : list WriteCall) :
  ∃ e, _write OtherObject format output kwargs log = (inl e, log)
       ∧ (format = Some (FileFormat_value HDF5) →
          (∀ id, output = Stream id →
             e = ValueError "Cannot write HDF5 file to buffer of any type.")
          ∧ (∀ type_name, output = Buffer type_name →
               e = TypeError ("expected str, bytes or os.PathLike object, not "
                                +:+ type_name))
          ∧ (∀ p, output = Path p →
               e = TypeError "'NoneType' object is not callable"))
       ∧ (format ≠ Some (FileFormat_value HDF5) →
          e = TypeError "'NoneType' object is not callable").
Proof.
  unfold _write.
  destruct (decide (format = Some (FileFormat_value HDF5))) as [->|Hf].
  - destruct output as [p|id|t]; simpl; eexists; (split; [reflexivity|]);
      (split; [|congruence]); intros _; repeat split; congruence.
  - assert (Hh : format_is
                   match format with
                   | Some _ => format
                   | None => Some (FileFormat_value PARQUET)
                   end HDF5 = false)
      by (destruct format; [now apply format_is_false | reflexivity]).
    rewrite Hh. simpl. rewrite andb_false_r. simpl.
    eexists; split; [reflexivity|]. split; [contradiction | trivial].
Qed.

Lemma write_kwargs_cases (df : Table) (format : option string) (output : FileObj)
    (kwargs kwargs' : gmap string PyVal) (log : list WriteCall) (w : Writer) :
  _write df format output kwargs log
  = (inr tt, log ++ [mkWriteCall w df output kwargs']) →
  kwargs' = kwargs
  ∨ (∃ name, kwargs' = setdefault "key" (VStr name) kwargs)
  ∨ (kwargs !! "coerce_timestamps" = None
     ∧ kwargs' = <["allow_truncated_timestamps" := VBool true]>
                   (<["coerce_timestamps" := VStr "ms"]> kwargs)).
Proof.
  unfold _write, call_writer.
  destruct (__get_writer df _) as [e|[w'|]]; [discriminate| |].
  - destruct (format_is _ HDF5).
    + destruct output as [p|id|t]; [|discriminate|discriminate].
      intros [= H%app_inv_head]. injection H as _ <-. right. left. eauto.
    + destruct (_ && _).
      * destruct (kwargs !! "coerce_timestamps") eqn:Hc;
          intros [= H%app_inv_head]; injection H as _ <-; auto.
      * intros [= H%app_inv_head]. injection H as _ <-. auto.
  - destruct (format_is _ HDF5); [destruct output|destruct (_ && _)];
      discriminate.
Qed.

(** X16: whatever the format, the options the writer receives contain
    every option of the caller with its value, [allow_truncated_timestamps]
    apart, and nothing else but [key], [coerce_timestamps] and
    [allow_truncated_timestamps]: [_write] never drops an option and
    never invents another one. *)
Theorem write_keeps_caller_options (df : Table) (format : option string)
    (output : FileObj) (kwargs kwargs' : gmap string PyVal)
    (log : list WriteCall) (w : Writer) :
  _write df format output kwargs log
  = (inr tt, log ++ [mkWriteCall w df output kwargs']) →
  (∀ k v, kwargs !! k = Some v → k ≠ "allow_truncated_timestamps" →
          kwargs' !! k = Some v)
  ∧ (∀ k, is_Some (kwargs' !! k) →
          is_Some (kwargs !! k)
          ∨ k ∈ ["key"; "coerce_timestamps"; "allow_truncated_timestamps"]).
Proof.
  intros H. apply write_kwargs_cases in H as [->|[[name ->]|[Hc ->]]].
  - split; auto.
  - unfold setdefault. destruct (kwargs !! "key") eqn:Hk; [split; auto|].
    split.
    + intros k v Hv _. rewrite lookup_insert_ne; [exact Hv | congruence].
    + intros k. destruct (decide (k = "key")) as [->|Hne]; [set_solver|].
      rewrite lookup_insert_ne by congruence. auto.
  - split.
    + intros k v Hv Hne.
      rewrite lookup_insert_ne by congruence.
      rewrite lookup_insert_ne; [exact Hv | congruence].
    + intros k.
      destruct (decide (k = "allow_truncated_timestamps")) as [->|H1]; [set_solver|].
      destruct (decide (k = "coerce_timestamps")) as [->|H2]; [set_solver|].
      rewrite !lookup_insert_ne by congruence. auto.
Qed.

Lemma write_keeps_caller_options_witness :
  let kwargs : gmap string PyVal := {[ "compression" := VStr "snappy" ]} in
  let kwargs' : gmap string PyVal :=
    <["allow_truncated_timestamps" := VBool true]>
      (<["coerce_timestamps" := VStr "ms"]> kwargs) in
  (∀ k v, kwargs !! k = Some v → k ≠ "allow_truncated_timestamps" →
          kwargs' !! k = Some v)
  ∧ (∀ k, is_Some (kwargs' !! k) →
          is_Some (kwargs !! k)
          ∨ k ∈ ["key"; "coerce_timestamps"; "allow_truncated_timestamps"]).
Proof.
  intros kwargs kwargs'.
  apply (write_keeps_caller_options (PandasFrame three_rows) None (Path "t.parquet")
           kwargs kwargs' [] to_parquet).
  reflexivity.
Defined.


(** X26: exporting a pandas frame as HDF5 to a file path calls [to_hdf]
    once with the caller's options and a key: the key the caller gave,
    or else the stem of the file name, which for a path [dir/name.ext] is
    [name] (for [storage/my_dataframe.hdf5], [my_dataframe]); no other
    option is touched. *)
Theorem write_hdf5_key_of_path (f : Frame) (p : string)
    (kwargs : gmap string PyVal) (log : list WriteCall) :
  ∃ kwargs',
    _write (PandasFrame f) (Some (FileFormat_value HDF5)) (Path p) kwargs log
    = (inr tt, log ++ [mkWriteCall to_hdf (PandasFrame f) (Path p) kwargs'])
    ∧ kwargs' !! "key"
      = Some (default (VStr (fst (OsPath.splitext (OsPath.basename p))))
                      (kwargs !! "key"))
    ∧ (∀ k, k ≠ "key" → kwargs' !! k = kwargs !! k)
    ∧ (∀ dir name ext,
         p = dir +:+ "/" +:+ name +:+ "." +:+ ext →
         PyStr.mem "/" name = false → PyStr.mem "/" ext = false →
         PyStr.mem "." ext = false → OsPath.has_other "." name = true →
         kwargs !! "key" = None →
         kwargs' !! "key" = Some (VStr name)).
Proof.
  exists (setdefault "key" (VStr (fst (OsPath.splitext (OsPath.basename p)))) kwargs).
  destruct (setdefault_lookup "key"
              (VStr (fst (OsPath.splitext (OsPath.basename p)))) kwargs)
    as [Hkey Hother].
  split; [reflexivity|]. split; [exact Hkey|]. split; [exact Hother|].
  intros dir name ext -> Hn He Hd Ho Hk.
  rewrite Hkey, Hk. cbn [from_option id].
  now rewrite (proj1 (stem_of_path dir name ext Hn He Hd Ho)).
Qed.

Lemma write_hdf5_key_of_path_witness :
  ∃ kwargs',
    _write (PandasFrame three_rows) (Some (FileFormat_value HDF5))
      (Path "storage/my_dataframe.hdf5") ∅ []
    = (inr tt, [] ++ [mkWriteCall to_hdf (PandasFrame three_rows)
                        (Path "storage/my_dataframe.hdf5") kwargs'])
    ∧ kwargs' !! "key" = Some (VStr "my_dataframe").
Proof.
  destruct (write_hdf5_key_of_path three_rows "storage/my_dataframe.hdf5" ∅ [])
    as [kwargs' [Hw [_ [_ Hstem]]]].
  exists kwargs'. split; [exact Hw|].
  apply (Hstem "storage" "my_dataframe" "hdf5"); reflexivity.
Defined.

End WriteFacts.

(** ** Query shaping *)

Section QueryFacts.
Import PyStr BaseIO BaseSQLDatabase.

Lemma rstrip_all_in (chars s : string) :
  all_in chars s = true → rstrip chars s = "".
Proof.
  induction s as [|c s IH]; simpl; [reflexivity|].
  intros [Hc Hs]%andb_true_iff. now rewrite (IH Hs), Hc.
Qed.

Lemma lstrip_all_in_app (chars l s : string) :
  all_in chars l = true → lstrip chars (l ++ s) = lstrip chars s.
Proof.
  induction l as [|c l IH]; simpl; [reflexivity|].
  intros [Hc Hl]%andb_true_iff. rewrite Hc. now apply IH.
Qed.

Lemma rstrip_app_all_in (chars s r : string) :
  all_in chars r = true → rstrip chars (s ++ r) = rstrip chars s.
Proof.
  intros Hr. induction s as [|c s IH]; simpl.
  - now apply rstrip_all_in.
  - now rewrite IH.
Qed.

Lemma lstrip_fixed (chars s : string) :
  (∀ c, first_char s = Some c → mem c chars = false) → lstrip chars s = s.
Proof.
  destruct s as [|c s]; simpl; [reflexivity|].
  intros H. now rewrite (H c eq_refl).
Qed.

Lemma rstrip_fixed (chars s : string) :
  (∀ c, last_char s = Some c → mem c chars = false) → rstrip chars s = s.
Proof.
  induction s as [|c s IH]; [reflexivity|].
  intros H. simpl. destruct s as [|d s].
  - simpl. now rewrite (H c eq_refl).
  - rewrite IH by exact H. reflexivity.
Qed.

Lemma strip_fixed (chars s : string) :
  (∀ c, first_char s = Some c → mem c chars = false) →
  (∀ c, last_char s = Some c → mem c chars = false) →
  strip chars s = s.
Proof.
  intros Hf Hl. unfold strip. rewrite lstrip_fixed by assumption.
  now apply rstrip_fixed.
Qed.

Lemma strip_idempotent (chars s : string) :
  strip chars (strip chars s) = strip chars s.
Proof. apply strip_fixed; [apply strip_first | apply strip_last]. Qed.

(** Characters of [chars] around a string do not change what [strip]
    leaves of it. *)
Lemma strip_boundary (chars l s r : string) :
  all_in chars l = true → all_in chars r = true →
  strip chars (l ++ s ++ r) = strip chars s.
Proof.
  intros Hl Hr. unfold strip. rewrite lstrip_all_in_app by assumption.
  induction s as [|c s IH]; simpl.
  - destruct (lstrip_split chars r) as [l' [Hsplit Hl']].
    apply rstrip_all_in.
    rewrite Hsplit, all_in_app in Hr. now apply andb_true_iff in Hr as [_ ?].
  - destruct (mem c chars); [exact IH|].
    change (String c (s ++ r)) with (String c s ++ r).
    now apply rstrip_app_all_in.
Qed.

Lemma last_char_cons (x : ascii) (s : string) :
  s ≠ "" → last_char (String x s) = last_char s.
Proof. now destruct s. Qed.

Lemma app_not_empty_r (a b : string) : b ≠ "" → a ++ b ≠ "".
Proof. destruct a; [trivial | discriminate]. Qed.

Lemma last_char_app (a b : string) : b ≠ "" → last_char (a ++ b) = last_char b.
Proof.
  intros Hb. induction a as [|x a IH]; [reflexivity|].
  simpl String.append. rewrite last_char_cons by now apply app_not_empty_r.
  exact IH.
Qed.

Lemma first_char_app (a b : string) : a ≠ "" → first_char (a ++ b) = first_char a.
Proof. now destruct a. Qed.

Lemma last_char_all_in (chars s : string) (c : ascii) :
  all_in chars s = true → last_char s = Some c → mem c chars = true.
Proof.
  induction s as [|x s IH]; [discriminate|].
  simpl all_in. intros [Hx Hs]%andb_true_iff.
  destruct s as [|y s]; [now intros [= <-]|].
  rewrite last_char_cons by discriminate. now apply IH.
Qed.

(** X17: [_clean_query] removes the spaces, newlines and tabs around the
    query and nothing else: what it leaves neither starts nor ends with
    one of them, more of them around the query change nothing, and
    cleaning a cleaned query changes nothing. *)
Theorem clean_query_strips_surrounding_whitespace (query : string) :
  _clean_query (_clean_query query) = _clean_query query
  ∧ (∃ l r, query = l ++ _clean_query query ++ r
            ∧ all_in query_whitespace l = true
            ∧ all_in query_whitespace r = true)
  ∧ (∀ c, first_char (_clean_query query) = Some c → mem c query_whitespace = false)
  ∧ (∀ c, last_char (_clean_query query) = Some c → mem c query_whitespace = false)
  ∧ (∀ l r, all_in query_whitespace l = true → all_in query_whitespace r = true →
            _clean_query (l ++ query ++ r) = _clean_query query).
Proof.
  unfold _clean_query. change (" " ++ nl ++ tab) with query_whitespace.
  split; [apply strip_idempotent|].
  split; [apply strip_split|].
  split; [apply strip_first|].
  split; [apply strip_last|].
  intros l r. apply strip_boundary.
Qed.

(** X18: statement terminators at the two ends of the query have no
    influence on the limited statement: adding or removing [;] there
    gives the same result, and so does stripping them beforehand. *)
Theorem enforce_limit_ignores_boundary_terminators (l query r : string) (limit : Z) :
  all_in ";" l = true → all_in ";" r = true →
  _enforce_limit (l ++ query ++ r) limit = _enforce_limit query limit
  ∧ _enforce_limit (strip ";" query) limit = _enforce_limit query limit.
Proof.
  intros Hl Hr. unfold _enforce_limit.
  now rewrite strip_boundary, strip_idempotent.
Qed.

Lemma enforce_limit_ignores_boundary_terminators_witness :
  _enforce_limit (";" ++ "SELECT a; SELECT b" ++ ";;") 10
  = _enforce_limit "SELECT a; SELECT b" 10
  ∧ _enforce_limit (strip ";" "SELECT a; SELECT b") 10
    = _enforce_limit "SELECT a; SELECT b" 10.
Proof.
  apply (enforce_limit_ignores_boundary_terminators ";" "SELECT a; SELECT b" ";;" 10);
    reflexivity.
Defined.

(** X19: a query that neither starts nor ends with [;] is put into the
    subquery exactly as it is: whitespace is not stripped, and a
    terminator that is followed by anything, a space or a newline
    included, stays inside the subquery. *)
Theorem enforce_limit_keeps_inner_text (query : string) (limit : Z) :
  first_char query ≠ Some ";"%char → last_char query ≠ Some ";"%char →
  _enforce_limit query limit = limit_envelope query limit.
Proof.
  intros Hf Hl. unfold _enforce_limit. rewrite strip_fixed; [reflexivity| |].
  - intros c Hc. destruct (mem c ";") eqn:Hm; [|reflexivity].
    simpl in Hm. rewrite orb_false_r in Hm. apply Ascii.eqb_eq in Hm as ->.
    contradiction.
  - intros c Hc. destruct (mem c ";") eqn:Hm; [|reflexivity].
    simpl in Hm. rewrite orb_false_r in Hm. apply Ascii.eqb_eq in Hm as ->.
    contradiction.
Qed.

Lemma enforce_limit_keeps_inner_text_witness :
  _enforce_limit "SELECT 1; " 5 = limit_envelope "SELECT 1; " 5.
Proof.
  apply (enforce_limit_keeps_inner_text "SELECT 1; " 5); discriminate.
Defined.

(** X20: cleaning the query before limiting it removes the terminators
    also when whitespace follows them: for a statement that is wrapped in
    whitespace and ended by any number of [;], the limited statement is
    that of the bare statement. *)
Theorem clean_then_limit_strips_terminators (w1 body semis w2 : string) (limit : Z) :
  all_in query_whitespace w1 = true → all_in query_whitespace w2 = true →
  all_in ";" semis = true →
  (∃ c, first_char body = Some c ∧ mem c query_whitespace = false) →
  (∃ c, last_char body = Some c ∧ mem c query_whitespace = false) →
  _clean_query (w1 ++ body ++ semis ++ w2) = body ++ semis
  ∧ _enforce_limit (_clean_query (w1 ++ body ++ semis ++ w2)) limit
    = _enforce_limit body limit.
Proof.
  intros H1 H2 Hs [cf [Hcf Hf]] [cl [Hcl Hl]].
  assert (Hb : body ≠ "") by (intros ->; discriminate).
  assert (Hclean : _clean_query (w1 ++ body ++ semis ++ w2) = body ++ semis).
  { unfold _clean_query. change (" " ++ nl ++ tab) with query_whitespace.
    rewrite <- (append_assoc body semis w2).
    rewrite strip_boundary by assumption. apply strip_fixed.
    - intros c. rewrite first_char_app by assumption.
      rewrite Hcf. now intros [= <-].
    - intros c. destruct semis as [|s semis].
      + rewrite append_empty_r, Hcl. now intros [= <-].
      + rewrite last_char_app by discriminate. intros Hc.
        apply (last_char_all_in _ _ _ Hs) in Hc. simpl in Hc.
        rewrite orb_false_r in Hc. now apply Ascii.eqb_eq in Hc as ->. }
  split; [exact Hclean|]. rewrite Hclean.
  unfold _enforce_limit.
  rewrite <- (strip_boundary ";" "" body semis eq_refl Hs). reflexivity.
Qed.

Lemma clean_then_limit_strips_terminators_witness :
  _clean_query ((" " ++ nl) ++ "SELECT 1" ++ ";" ++ (nl ++ tab)) = "SELECT 1" ++ ";"
  ∧ _enforce_limit (_clean_query ((" " ++ nl) ++ "SELECT 1" ++ ";" ++ (nl ++ tab))) 5
    = _enforce_limit "SELECT 1" 5.
Proof.
  apply (clean_then_limit_strips_terminators (" " ++ nl) "SELECT 1" ";" (nl ++ tab) 5);
    try reflexivity.
  - exists "S"%char. split; reflexivity.
  - exists "1"%char. split; reflexivity.
Defined.

End QueryFacts.

(** ** The sanitizer's result *)

Section SanitizerFacts.
Import PyStr BaseSQLDatabase.

Variable clean_name : string → bool → string.
Variable SQL_RESERVED_WORDS : gset string.

(** X21: when no reserved word starts with an underscore, the name the
    sanitizer returns with [allow_reserved_words=False] is never a
    reserved word, in any letter case, whatever [clean_name] does and
    whether or not case is kept; and a name is changed by the reserved
    word check only by one underscore in front. *)
Theorem clean_column_name_never_reserved (column_name : string) (case_sensitive : bool) :
  (∀ w, w ∈ SQL_RESERVED_WORDS → first_char w ≠ Some "_"%char) →
  let result :=
    _clean_column_name clean_name SQL_RESERVED_WORDS column_name false true case_sensitive in
  (upper result ∉ SQL_RESERVED_WORDS)
  ∧ (result = clean_name column_name case_sensitive
     ∨ result = "_" ++ clean_name column_name case_sensitive).
Proof.
  intros Hr result. subst result. unfold _clean_column_name. cbn [negb andb].
  destruct (bool_decide_reflect
              (upper (clean_name column_name case_sensitive) ∈ SQL_RESERVED_WORDS))
    as [Hin|Hout].
  - split; [|now right]. intros H. now apply Hr in H.
  - split; [exact Hout | now left].
Qed.

End SanitizerFacts.

Section SanitizerWitness.
Import PyStr BaseSQLDatabase.

Lemma clean_column_name_never_reserved_witness :
  let result :=
    _clean_column_name clean_name_model reserved_words_model "Order" false true true in
  (upper result ∉ reserved_words_model)
  ∧ (result = clean_name_model "Order" true
     ∨ result = "_" ++ clean_name_model "Order" true).
Proof.
  exact (clean_column_name_never_reserved clean_name_model reserved_words_model
           "Order" true reserved_words_model_no_underscore).
Defined.

End SanitizerWitness.

(** ** The connection over a run of calls *)

Section ConnectionRuns.
Import BaseSQLConnection.
Context {Handle : Type}.

Local Close Scope string_scope.

Implicit Types (self : Conn Handle) (log : list (Event Handle))
  (st : State Handle) (h : Handle) (cs : list (Call Handle)).

Lemma commit_effect self log :
  commit (self, log)
  = match __dict__ self !! "_ctx" with
    | Some h => (inr tt, (self, log ++ [CtxCommit h]))
    | None => (inl not_connected, (self, log))
    end.
Proof.
  unfold commit, mbind, M_bind. rewrite conn_lookup. cbn [fst snd].
  destruct (__dict__ self !! "_ctx"); reflexivity.
Qed.

Lemma rollback_effect self log :
  rollback (self, log)
  = match __dict__ self !! "_ctx" with
    | Some h => (inr tt, (self, log ++ [CtxRollback h]))
    | None => (inl not_connected, (self, log))
    end.
Proof.
  unfold rollback, mbind, M_bind. rewrite conn_lookup. cbn [fst snd].
  destruct (__dict__ self !! "_ctx"); reflexivity.
Qed.

(** X22: [commit] and [rollback] on a connector with no open connection
    raise the connection error without calling the driver and without
    changing the connector; with an open connection they make exactly one
    driver call, on the open handle, and keep the connection open. *)
Theorem commit_rollback_need_connection self log :
  (__dict__ self !! "_ctx" = None →
   commit (self, log) = (inl not_connected, (self, log))
   ∧ rollback (self, log) = (inl not_connected, (self, log)))
  ∧ (∀ h, __dict__ self !! "_ctx" = Some h →
       commit (self, log) = (inr tt, (self, log ++ [CtxCommit h]))
       ∧ rollback (self, log) = (inr tt, (self, log ++ [CtxRollback h]))
       ∧ conn (snd (commit (self, log))) = (inr h, snd (commit (self, log)))
       ∧ conn (snd (rollback (self, log))) = (inr h, snd (rollback (self, log)))).
Proof.
  split.
  - intros Hn. now rewrite commit_effect, rollback_effect, Hn.
  - intros h Hh. rewrite commit_effect, rollback_effect, Hh.
    repeat split; rewrite conn_lookup; cbn [fst snd]; now rewrite Hh.
Qed.

(** What one call adds to the log: events on the handle that was open
    before the call, or the separator. *)
Lemma call_log (c : Call Handle) self log :
  ∃ evs,
    snd (snd (call c (self, log))) = log ++ evs
    ∧ (∀ e h, e ∈ evs → event_handle e = Some h → __dict__ self !! "_ctx" = Some h)
    ∧ length (List.filter is_ctx_close evs)
      = match c, __dict__ self !! "_ctx" with
        | CallClose, Some _ => 1
        | _, _ => 0
        end.
Proof.
  destruct c as [h| | | |]; unfold call.
  - exists []. rewrite open_effect. cbn [fst snd]. rewrite app_nil_r.
    split; [reflexivity|]. split; [intros e h' []%elem_of_nil | reflexivity].
  - exists (released self ++ separator self). rewrite close_effect. cbn [fst snd].
    split; [reflexivity|]. unfold released, separator.
    destruct (__dict__ self !! "_ctx") as [h|];
      destruct (verbose self && exists_previous_message (printer self));
      (split; [|reflexivity]); intros e h' He Hh;
      repeat (apply elem_of_cons in He as [->|He]; [simpl in Hh; congruence|]);
      now apply elem_of_nil in He.
  - rewrite commit_effect. destruct (__dict__ self !! "_ctx") as [h|]; cbn [fst snd].
    + exists [CtxCommit h]. split; [reflexivity|]. split; [|reflexivity].
      intros e h' ->%list_elem_of_singleton [= ->]. reflexivity.
    + exists []. rewrite app_nil_r. split; [reflexivity|].
      split; [intros e h' []%elem_of_nil | reflexivity].
  - rewrite rollback_effect. destruct (__dict__ self !! "_ctx") as [h|]; cbn [fst snd].
    + exists [CtxRollback h]. split; [reflexivity|]. split; [|reflexivity].
      intros e h' ->%list_elem_of_singleton [= ->]. reflexivity.
    + exists []. rewrite app_nil_r. split; [reflexivity|].
      split; [intros e h' []%elem_of_nil | reflexivity].
  - exists []. unfold mbind, M_bind, mret, M_ret. rewrite conn_lookup.
    cbn [fst snd]. rewrite app_nil_r.
    split; [now destruct (__dict__ self !! "_ctx")|].
    split; [intros e h' []%elem_of_nil | now destruct (__dict__ self !! "_ctx")].
Qed.

Lemma run_cons (c : Call Handle) cs st :
  run (c :: cs) st = run cs (snd (call c st)).
Proof. reflexivity. Qed.

Lemma open_handle_keeps cs (acc : option Handle) :
  forallb keeps_handle cs = true → open_handle cs acc = acc.
Proof.
  induction cs as [|c cs IH]; [reflexivity|]. simpl.
  intros [Hc Hcs]%andb_true_iff. destruct c; try discriminate; now apply IH.
Qed.

(** X23: used as a context manager, the connector releases on exit the
    handle it was given on entry: whatever commits, rollbacks and handle
    accesses the block makes, succeeding or not, [__exit__] returns
    normally, calls the driver's close on exactly that handle, and leaves
    the connector without a connection. *)
Theorem with_block_releases_handle st h cs :
  forallb keeps_handle cs = true →
  let inside := run cs (snd (__enter__ h st)) in
  fst (__exit__ inside) = inr tt
  ∧ snd (snd (__exit__ inside))
    = snd inside ++ [CtxClose h] ++ separator (fst inside)
  ∧ __dict__ (fst (snd (__exit__ inside))) !! "_ctx" = None
  ∧ fst (conn (snd (__exit__ inside))) = inl not_connected.
Proof.
  intros Hcs inside.
  assert (Hctx : __dict__ (fst inside) !! "_ctx" = Some h).
  { subst inside. rewrite run_ctx, open_handle_keeps by assumption.
    destruct st as [self log]. unfold __enter__. rewrite open_effect.
    cbn [fst snd]. apply lookup_insert_eq. }
  destruct inside as [self log]. unfold __exit__. rewrite close_effect.
  cbn [fst snd] in *. unfold released at 1. rewrite Hctx.
  repeat split.
  - cbn [__dict__]. apply lookup_delete_eq.
  - rewrite conn_lookup. cbn [fst snd __dict__]. now rewrite lookup_delete_eq.
Qed.

Lemma opened_handles_cons (c : Call Handle) cs :
  opened_handles (c :: cs)
  = match c with
    | CallOpen h => h :: opened_handles cs
    | _ => opened_handles cs
    end.
Proof. now destruct c. Qed.

(** X24: the connector calls the driver only on handles that [open]
    stored: every close, commit or rollback event that a run of calls
    adds to the log is on the handle that was open at the start or on one
    that an [open] of the run stored. *)
Theorem driver_calls_only_on_opened_handles cs st (e : Event Handle) h :
  e ∈ snd (run cs st) → event_handle e = Some h →
  e ∈ snd st ∨ __dict__ (fst st) !! "_ctx" = Some h ∨ h ∈ opened_handles cs.
Proof.
  revert st. induction cs as [|c cs IH]; intros st He Hh; [now left|].
  rewrite run_cons in He. destruct (IH _ He Hh) as [Hin|[Hctx|Hop]].
  - destruct st as [self log].
    destruct (call_log c self log) as [evs [Hlog [Hevs _]]].
    rewrite Hlog in Hin. apply elem_of_app in Hin as [Hin|Hin]; [now left|].
    right. left. exact (Hevs e h Hin Hh).
  - rewrite call_ctx in Hctx. rewrite opened_handles_cons.
    destruct c; simpl in Hctx; try discriminate; auto.
    injection Hctx as ->. right. right. set_solver.
  - right. right. rewrite opened_handles_cons. destruct c; set_solver.
Qed.

Lemma released_length self :
  length (released self)
  = match __dict__ self !! "_ctx" with
    | Some _ => 1
    | None => 0
    end.
Proof. unfold released. now destruct (__dict__ self !! "_ctx"). Qed.

Lemma run_close_count cs st :
  length (List.filter is_ctx_close (snd (run cs st)))
  + length (released (fst (run cs st)))
  ≤ length (List.filter is_ctx_close (snd st)) + length (released (fst st))
    + length (opened_handles cs).
Proof.
  revert st. induction cs as [|c cs IH]; intros st; [simpl; lia|].
  rewrite run_cons. etrans; [apply IH|].
  destruct st as [self log].
  destruct (call_log c self log) as [evs [Hlog [_ Hcount]]].
  rewrite Hlog, List.filter_app, length_app, Hcount.
  pose proof (call_ctx c (self, log)) as Hctx. cbn [fst] in Hctx.
  rewrite !released_length, Hctx, opened_handles_cons.
  cbn [fst snd]. destruct c, (__dict__ self !! "_ctx"); simpl; lia.
Qed.

(** X25: the connector closes a driver handle at most once for each
    [open]: in every run of calls on a fresh connector the driver's close
    is called no more often than [open] was, a handle that is still open
    at the end counting as one that was not closed. *)
Theorem driver_close_at_most_once_per_open (verbose : bool)
    (p : VerbosePrintHandler) (kwargs : gmap string PyVal) cs :
  let final := run cs (__init__ verbose p kwargs, []) in
  length (List.filter is_ctx_close (snd final)) + length (released (fst final))
  ≤ length (opened_handles cs).
Proof.
  intros final. subst final.
  etrans; [apply run_close_count|].
  cbn [fst snd]. rewrite (released_length (__init__ verbose p kwargs)).
  unfold __init__. cbn [__dict__]. rewrite lookup_empty. simpl. lia.
Qed.

End ConnectionRuns.

Section ConnectionRunWitnesses.
Import BaseSQLConnection.

Local Close Scope string_scope.

Lemma with_block_releases_handle_witness :
  let st : State nat := (__init__ true (mkPrinter false) ∅, []) in
  let inside := run [CallCommit; CallConn; CallRollback] (snd (__enter__ 7 st)) in
  fst (__exit__ inside) = inr tt
  ∧ snd (snd (__exit__ inside))
    = snd inside ++ [CtxClose 7] ++ separator (fst inside)
  ∧ __dict__ (fst (snd (__exit__ inside))) !! "_ctx" = None
  ∧ fst (conn (snd (__exit__ inside))) = inl not_connected.
Proof.
  intros st.
  apply (with_block_releases_handle st 7 [CallCommit; CallConn; CallRollback]).
  reflexivity.
Defined.

Lemma driver_calls_only_on_opened_handles_witness :
  let st : State nat := (__init__ false (mkPrinter false) ∅, []) in
  let cs := [CallOpen 1; CallCommit; CallClose; CallCommit] in
  CtxCommit 1 ∈ snd st ∨ __dict__ (fst st) !! "_ctx" = Some 1
  ∨ 1 ∈ opened_handles cs.
Proof.
  intros st cs.
  apply (driver_calls_only_on_opened_handles cs st (CtxCommit 1) 1);
    [|reflexivity].
  vm_compute. apply elem_of_list_further, elem_of_list_here || set_solver.
Defined.

End ConnectionRunWitnesses.
